(** * opnsensewireguard.py: adding a WireGuard client to an OPNsense config.xml

    A shallow embedding of [src/opnsensewireguard.py] and the properties of
    its configuration-document mutation engine: address allocation from the
    server's CIDR block, validation of the server record, the formatted
    insertion of the new client element, the peers list update and the
    backup / write / restore sequence around [tree.write].

    Python values are modelled as follows.
    - [str] is [string]; the [str] methods the script calls are in [PyStr].
    - An optional value ([None] or a string) is [option string].
    - An [xml.etree.ElementTree.Element] is the record [Element] (tag,
      attributes in insertion order, text, tail, children); an element inside
      the tree is named by its index path from the root, so that the in-place
      updates of the script become updates at a path.
    - An IPv4 address is its integer value in [Z]; a network is its network
      address and prefix length.
    - The script's effects (terminal, files, external commands) thread a
      [world]; [exit(n)] and uncaught exceptions are the two abnormal
      outcomes of the [py] monad.
    - Functions of the Python standard library whose code is not part of the
      script (the XML parser and writer, the address parsers, [int]) are
      fields of the interface [PyLib]. *)

From stdpp Require Import gmap strings list sorting pretty.
From Stdlib Require Import Ascii ZArith Lia.

(** ** The [str] methods used by the script *)

Module PyStr.

(** [s * n] *)
Fixpoint repeat (s : string) (n : nat) : string :=
  match n with
  | O => ""
  | S k => s +:+ repeat s k
  end.

(** Scanning helper of [replace] and [count]: [skip] characters of a match
    found earlier are still to be passed over. *)
Fixpoint replace_from (old new : string) (skip : nat) (s : string) : string :=
  match s with
  | "" => ""
  | String c s' =>
      match skip with
      | S k => replace_from old new k s'
      | O =>
          if String.prefix old s
          then new +:+ replace_from old new (String.length old - 1) s'
          else String c (replace_from old new 0 s')
      end
  end.

(** With an empty [old], Python puts [new] before every character and at
    the end. *)
Fixpoint interleave (new s : string) : string :=
  match s with
  | "" => new
  | String c s' => new +:+ String c (interleave new s')
  end.

(** [s.replace(old, new)]: every non-overlapping occurrence, left to right. *)
Definition replace (s old new : string) : string :=
  match old with
  | "" => interleave new s
  | _ => replace_from old new 0 s
  end.

Fixpoint count_from (sub : string) (skip : nat) (s : string) : nat :=
  match s with
  | "" => 0
  | String c s' =>
      match skip with
      | S k => count_from sub k s'
      | O =>
          if String.prefix sub s
          then S (count_from sub (String.length sub - 1) s')
          else count_from sub 0 s'
      end
  end.

(** [s.count(sub)]: the number of non-overlapping occurrences; an empty
    [sub] is counted between all characters. *)
Definition count (s sub : string) : nat :=
  match sub with
  | "" => S (String.length s)
  | _ => count_from sub 0 s
  end.

(** [s.split(sep)] for a one-character separator: [cur] is the piece being
    read. *)
Fixpoint split_from (sep : ascii) (cur : string) (s : string) : list string :=
  match s with
  | "" => [cur]
  | String c s' =>
      if Ascii.eqb c sep
      then cur :: split_from sep "" s'
      else split_from sep (cur +:+ String c "") s'
  end.

Definition split (s : string) (sep : ascii) : list string :=
  split_from sep "" s.

(** [sep.join(l)] *)
Fixpoint join (sep : string) (l : list string) : string :=
  match l with
  | [] => ""
  | [x] => x
  | x :: rest => x +:+ sep +:+ join sep rest
  end.

(** [s[:n]] *)
Fixpoint take (n : nat) (s : string) : string :=
  match n, s with
  | S k, String c s' => String c (take k s')
  | _, _ => ""
  end.

Definition lower_ascii (c : ascii) : ascii :=
  let n := nat_of_ascii c in
  if (65 <=? n)%nat && (n <=? 90)%nat then ascii_of_nat (n + 32) else c.

Definition upper_ascii (c : ascii) : ascii :=
  let n := nat_of_ascii c in
  if (97 <=? n)%nat && (n <=? 122)%nat then ascii_of_nat (n - 32) else c.

Fixpoint map_chars (f : ascii -> ascii) (s : string) : string :=
  match s with
  | "" => ""
  | String c s' => String (f c) (map_chars f s')
  end.

(** [s.lower()] and [s.upper()], on the ASCII letters. *)
Definition lower : string -> string := map_chars lower_ascii.
Definition upper : string -> string := map_chars upper_ascii.

(** [x or default] for strings: the empty string is false. *)
Definition or_default (x default : string) : string :=
  match x with
  | "" => default
  | _ => x
  end.

(** How an optional string prints inside an f-string. *)
Definition fmt (o : option string) : string :=
  match o with
  | Some s => s
  | None => "None"
  end.

End PyStr.

(** The newline character, written ["\n"] in the script. *)
Definition nl : string := String (ascii_of_nat 10) "".

(** ** [xml.etree.ElementTree] elements *)

#[warnings="-register-all"]
Inductive Element : Type := Elem {
  tag : string;
  attrib : list (string * string);
  text : option string;
  tail : option string;
  children : list Element
}.

Module ET.

Definition set_text (v : option string) (e : Element) : Element :=
  Elem (tag e) (attrib e) v (tail e) (children e).

Definition set_tail (v : option string) (e : Element) : Element :=
  Elem (tag e) (attrib e) (text e) v (children e).

Definition set_children (cs : list Element) (e : Element) : Element :=
  Elem (tag e) (attrib e) (text e) (tail e) cs.

(** [ET.SubElement(parent, tag, attrib)] creates this element and appends it
    to the parent's children. *)
Definition new_element (name : string) (att : list (string * string)) : Element :=
  Elem name att None None [].

Definition append_child (c : Element) (e : Element) : Element :=
  set_children (children e ++ [c])%list e.

(** [e.get(key)] *)
Fixpoint assoc (key : string) (l : list (string * string)) : option string :=
  match l with
  | [] => None
  | (k, v) :: rest => if String.eqb k key then Some v else assoc key rest
  end.

Definition get (e : Element) (key : string) : option string :=
  assoc key (attrib e).

(** Index of the first child with the given tag. *)
Fixpoint find_index (name : string) (cs : list Element) : option nat :=
  match cs with
  | [] => None
  | c :: rest =>
      if String.eqb (tag c) name then Some 0
      else S <$> find_index name rest
  end.

(** [e.find(tag)] *)
Definition find (e : Element) (name : string) : option Element :=
  i ← find_index name (children e); children e !! i.

(** [e.findtext(tag)]: [None] when there is no such child, the empty string
    when the child has no text. *)
Definition findtext (e : Element) (name : string) : option string :=
  match find e name with
  | None => None
  | Some c => Some (default "" (text c))
  end.

(** ["".join(e.itertext())] *)
Fixpoint itertext (e : Element) : string :=
  default "" (text e) +:+
  (fix over (cs : list Element) : string :=
     match cs with
     | [] => ""
     | c :: rest => itertext c +:+ default "" (tail c) +:+ over rest
     end) (children e).

(** An element of the tree, named by the child indices leading to it. *)
Definition path := list nat.

Fixpoint get_at (e : Element) (p : path) : option Element :=
  match p with
  | [] => Some e
  | i :: q => c ← children e !! i; get_at c q
  end.

(** The in-place update of the element at a path. *)
Fixpoint update_at (p : path) (f : Element -> Element) (e : Element) : Element :=
  match p with
  | [] => f e
  | i :: q => set_children (alter (update_at q f) i (children e)) e
  end.

(** The steps of the ElementPath expressions the script uses:
    [.], [tag], [*] and the predicate [[tag='value']]. *)
Inductive step :=
  | Self
  | Child (name : string)
  | Star
  | Pred (name value : string).

(** The children of the element at [p] that [keep] accepts, with their
    paths; [i] is the index of the first of [cs]. *)
Fixpoint children_from (keep : Element -> bool) (p : path) (i : nat)
    (cs : list Element) : list (path * Element) :=
  match cs with
  | [] => []
  | c :: rest =>
      (if keep c then [((p ++ [i])%list, c)] else [])
        ++ children_from keep p (S i) rest
  end%list.

Definition child_nodes (keep : Element -> bool) (n : path * Element)
    : list (path * Element) :=
  children_from keep (fst n) 0 (children (snd n)).

(** [[tag='value']] keeps an element when one of its [tag] children has
    exactly that text content. *)
Definition has_child_text (name value : string) (e : Element) : bool :=
  existsb (fun c => String.eqb (tag c) name && String.eqb (itertext c) value)
          (children e).

Definition select (s : step) (ns : list (path * Element)) : list (path * Element) :=
  match s with
  | Self => ns
  | Child name => ns ≫= child_nodes (fun c => String.eqb (tag c) name)
  | Star => ns ≫= child_nodes (fun _ => true)
  | Pred name value => List.filter (fun n => has_child_text name value (snd n)) ns
  end.

(** [root.findall(path)], in document order: the elements found, each with
    its place in the tree. *)
Definition findall (root : Element) (steps : list step) : list (path * Element) :=
  foldl (fun ns s => select s ns) [([], root)] steps.

End ET.

(** ** [ipaddress]: IPv4 addresses and networks *)

Module IP.

Open Scope Z_scope.

Record IPv4Network := Network {
  network_address : Z;
  prefixlen : Z
}.

Definition max_prefixlen : Z := 32.

Definition hostmask (net : IPv4Network) : Z :=
  Z.ones (max_prefixlen - prefixlen net).

Definition netmask (net : IPv4Network) : Z :=
  Z.lxor (Z.ones max_prefixlen) (hostmask net).

Definition broadcast_address (net : IPv4Network) : Z :=
  Z.lor (network_address net) (hostmask net).

(** [range(lo, hi)] *)
Definition range (lo hi : Z) : list Z :=
  map (fun i => lo + Z.of_nat i) (seq 0 (Z.to_nat (hi - lo))).

(** [net.hosts()]: the addresses strictly between the network and the
    broadcast address; both addresses of a /31; the one address of a /32. *)
Definition hosts (net : IPv4Network) : list Z :=
  if prefixlen net =? max_prefixlen - 1
  then range (network_address net) (broadcast_address net + 1)
  else if prefixlen net =? max_prefixlen
  then [network_address net]
  else range (network_address net + 1) (broadcast_address net).

Definition octet (a : Z) (i : Z) : Z :=
  Z.land (Z.shiftr a (8 * i)) 255.

(** [str(address)] *)
Definition to_string (a : Z) : string :=
  PyStr.join "." (map (fun i => pretty (octet a i)) [3; 2; 1; 0]).

End IP.

(** [l.remove(x)]: the list without the first occurrence of [x]; [None]
    stands for the [ValueError] raised when [x] is not in the list. *)
Fixpoint list_remove (x : Z) (l : list Z) : option (list Z) :=
  match l with
  | [] => None
  | y :: rest =>
      if Z.eqb y x then Some rest
      else (fun r => y :: r) <$> list_remove x rest
  end.

(** ** The standard library behind the script

    The functions whose code is outside the script. A parser returns [None]
    where the Python function raises its parse error. *)

Class PyLib := {
  (** [ET.fromstring(bytes)]; [None] is [ParseError]. *)
  fromstring : string -> option Element;
  (** The bytes [ElementTree(root).write(path)] produces. *)
  tostring : Element -> string;
  (** [ipaddress.ip_network(s, strict)]; [None] is [ValueError]. *)
  ip_network : string -> bool -> option IP.IPv4Network;
  (** [ipaddress.ip_address(s)]; [None] is [ValueError]. *)
  ip_address : string -> option Z;
  (** [int(s)]; [None] is [ValueError]. *)
  int : string -> option Z
}.

(** ** Outcomes and effects *)

Inductive exn :=
  | ValueError
  | IndexError
  | AttributeError
  | TypeError
  | NameError
  | UnboundLocalError
  | OSError
  | EOFError.

(** A Python computation returns, leaves through [exit(code)], or raises. *)
Inductive outcome (A : Type) :=
  | Ret (a : A)
  | Exit (code : Z)
  | Raise (e : exn).

Arguments Ret {A} a.
Arguments Exit {A} code.
Arguments Raise {A} e.

(** What a run does to its surroundings, in order. *)
Inductive event :=
  | Printed (s : string)
  | Copied (src dst : string) (ok : bool)
  | Wrote (file : string) (ok : bool)
  | Ran (cmd : string).

Record world := World {
  fs : gmap string string;
  stdin : list string;
  log : list event
}.

Definition py (A : Type) : Type := world -> outcome A * world.

Definition ret {A} (a : A) : py A := fun w => (Ret a, w).

Definition bind {A B} (m : py A) (k : A -> py B) : py B :=
  fun w =>
    match m w with
    | (Ret a, w') => k a w'
    | (Exit c, w') => (Exit c, w')
    | (Raise e, w') => (Raise e, w')
    end.

Declare Scope py_scope.
Delimit Scope py_scope with py.
Notation "x <- m ;; k" := (bind m (fun x => k))
  (at level 100, m at next level, right associativity) : py_scope.
Notation "m ;; k" := (bind m (fun _ => k))
  (at level 100, right associativity) : py_scope.
Open Scope py_scope.

Definition exit {A} (code : Z) : py A := fun w => (Exit code, w).

Definition raise {A} (e : exn) : py A := fun w => (Raise e, w).

Definition emit (ev : event) : py unit :=
  fun w => (Ret tt, World (fs w) (stdin w) (log w ++ [ev])).

Definition print (s : string) : py unit := emit (Printed s).

(** [input(prompt)]: the next line of the terminal. *)
Definition input (prompt : string) : py string :=
  fun w =>
    match stdin w with
    | [] => (Raise EOFError, World (fs w) [] (log w ++ [Printed prompt]))
    | line :: rest => (Ret line, World (fs w) rest (log w ++ [Printed prompt]))
    end.

(** A pure step that may raise. *)
Definition lift {A} (r : outcome A) : py A := fun w => (r, w).

(** [x[0]] on a list *)
Definition first {A} (l : list A) : outcome A :=
  match l with
  | [] => Raise IndexError
  | x :: _ => Ret x
  end.

(** [def user_quit()] *)
Definition user_quit {A} : py A :=
  print "User has quit without making changes." ;; exit 0.

(** [try: body except: handler]. A bare [except] also catches the
    [SystemExit] of [exit]. *)
Definition try_except {A} (body handler : py A) : py A :=
  fun w =>
    match body w with
    | (Ret a, w') => (Ret a, w')
    | (_, w') => handler w'
    end.

(** ** What the surroundings answer

    One field for each call the script makes out of the process. *)

(** The result of writing a file: [Failed residue] leaves [residue] at the
    destination ([None]: no file). *)
Inductive io :=
  | Done
  | Failed (residue : option string).

Record env := Env {
  (** [pkg info name] and [pkg add source] succeed *)
  pkg_info : string -> bool;
  pkg_add : string -> bool;
  (** the output of [wg genkey], [wg pubkey] and [wg genpsk]; [None] when
      the command fails *)
  wg_genkey : option string;
  wg_pubkey : string -> option string;
  wg_genpsk : option string;
  (** [str(uuid.uuid4())] *)
  uuid4 : string;
  (** reading an existing config file succeeds *)
  read_config : bool;
  (** [shutil.copy2] of the backup, [tree.write], [shutil.copy2] of the
      restore, and the write of the client's .conf file *)
  backup_copy : io;
  save_write : io;
  restore_copy : io;
  conf_write : io;
  (** [configctl wireguard restart] returns 0 *)
  restart : bool
}.

Definition put (file : string) (content : option string)
    (files : gmap string string) : gmap string string :=
  match content with
  | Some c => <[file := c]> files
  | None => delete file files
  end.

(** [shutil.copy2(src, dst)] *)
Definition copy2 (r : io) (src dst : string) : py unit :=
  fun w =>
    match fs w !! src, r with
    | Some content, Done =>
        (Ret tt, World (<[dst := content]> (fs w)) (stdin w)
                       (log w ++ [Copied src dst true]))
    | Some _, Failed residue =>
        (Raise OSError, World (put dst residue (fs w)) (stdin w)
                              (log w ++ [Copied src dst false]))
    | None, _ =>
        (Raise OSError, World (fs w) (stdin w) (log w ++ [Copied src dst false]))
    end.

(** Writing [content] to [file], as [tree.write(file)] and
    [open(file, "w").write(content)] do. *)
Definition write_file (r : io) (file content : string) : py unit :=
  fun w =>
    match r with
    | Done =>
        (Ret tt, World (<[file := content]> (fs w)) (stdin w)
                       (log w ++ [Wrote file true]))
    | Failed residue =>
        (Raise OSError, World (put file residue (fs w)) (stdin w)
                              (log w ++ [Wrote file false]))
    end.

(** An external command, run through the shell. *)
Definition run (cmd : string) : py unit := emit (Ran cmd).

(** [subprocess.check_output(cmd, shell=True, encoding="utf-8")] *)
Definition check_output (cmd : string) (result : option string) : py string :=
  run cmd ;;
  match result with
  | Some out => ret out
  | None => raise OSError
  end.

(** [s.rstrip("\n")] *)
Fixpoint rstrip_nl (s : string) : string :=
  match s with
  | "" => ""
  | String c s' =>
      let r := rstrip_nl s' in
      if Ascii.eqb c (ascii_of_nat 10) && String.eqb r "" then "" else String c r
  end.

(** ** The script *)

(** Things you can change *)
Definition default_endpoint : string := "server.address.com".
Definition default_client (n : nat) : string := "client" +:+ pretty n.
Definition default_dns : string := "192.168.0.1".
Definition default_network : string := "192.168.0.0/24".
Definition default_instance : string := "0".

Definition user_prompts : bool := true.
Definition package_prompt : bool := true.
Definition display_qr : bool := true.

Definition opnsense_config_xml : string := "/conf/config.xml".

Definition PNG_PKG : string :=
  "https://pkg.freebsd.org/FreeBSD:13:amd64/release_2/All/png-1.6.39.pkg".
Definition QR_PKG : string :=
  "https://pkg.freebsd.org/FreeBSD:13:amd64/release_2/All/libqrencode-4.1.1.pkg".

(** [opnsense_config_xml.replace(".xml", ".wgback")] *)
Definition backup_path : string :=
  PyStr.replace opnsense_config_xml ".xml" ".wgback".

(** The three ElementPath expressions of [main]. *)
Definition servers_path : list ET.step :=
  [ET.Self; ET.Child "OPNsense"; ET.Child "wireguard"; ET.Child "server";
   ET.Child "servers"; ET.Star].

Definition server_path (this_instance : string) : list ET.step :=
  [ET.Self; ET.Child "OPNsense"; ET.Child "wireguard"; ET.Child "server";
   ET.Child "servers"; ET.Star; ET.Pred "instance" this_instance].

Definition clients_node_path : list ET.step :=
  [ET.Self; ET.Child "OPNsense"; ET.Child "wireguard"; ET.Child "client";
   ET.Star].

Definition clients_path : list ET.step :=
  [ET.Self; ET.Child "OPNsense"; ET.Child "wireguard"; ET.Child "client";
   ET.Child "clients"; ET.Star].

(** [def parse_actions(selection, actions, default = None)] *)
Definition parse_actions {A} (selection : string) (actions : list (string * A))
    (default : option A) : option A :=
  match List.find (fun kv => String.eqb (fst kv) (PyStr.lower selection)) actions with
  | Some kv => Some (snd kv)
  | None => default
  end.

(** [def add_formatted_subelement(root, name, attrib, children, indent)]:
    the container [root] after the call. *)
Definition add_formatted_subelement (root : Element) (name : string)
    (att : list (string * string)) (childs : list (string * option string))
    (indent : string) : outcome Element :=
  (* See what the node itself uses for formatting. *)
  let root_tail := tail root in
  let root_text := text root in
  (* attempt to get indentation automatically *)
  let auto : outcome string :=
    if String.eqb indent "auto" then
      match last (children root) with
      | Some l =>
          match text l, tail l with
          | Some t, Some tl => Ret (PyStr.replace t tl "")
          | None, _ => Raise AttributeError
          | Some _, None => Raise TypeError
          end
      | None =>
          match root_text, root_tail with
          | Some t, Some tl =>
              let i := PyStr.replace t tl "" in
              Ret (PyStr.take (String.length i / 2) i)
          | None, _ => Raise AttributeError
          | Some _, None => Raise TypeError
          end
      end
    else Ret indent in
  match auto with
  | Exit c => Exit c
  | Raise e => Raise e
  | Ret indent =>
      match root_tail with
      | None => Raise AttributeError
      | Some rt =>
          let level := PyStr.count rt indent + 1 in
          let element_level := level + 1 in
          let child_level := level + 2 in
          (* add our element and its children *)
          let subs :=
            map (fun kv => ET.set_text (snd kv) (ET.new_element (fst kv) [])) childs in
          let element := ET.set_children subs (ET.new_element name att) in
          let element :=
            if (0 <? length (children element))%nat then
              let subs := map (ET.set_tail (Some (nl +:+ PyStr.repeat indent child_level)))
                              (children element) in
              let subs := alter (ET.set_tail (Some (nl +:+ PyStr.repeat indent element_level)))
                                (length subs - 1) subs in
              ET.set_children subs
                (ET.set_text (Some (nl +:+ PyStr.repeat indent child_level)) element)
            else element in
          (* fix up the padding for the element and its siblings *)
          let siblings := map (ET.set_tail (Some (nl +:+ PyStr.repeat indent element_level)))
                              (children root ++ [element])%list in
          (* and unindent that last sibling *)
          let siblings := alter (ET.set_tail (Some (nl +:+ PyStr.repeat indent level)))
                                (length siblings - 1) siblings in
          Ret (ET.set_children siblings root)
      end
  end.

(** The two dictionaries [parse_server_details] returns. *)
Record server_conf := ServerConf {
  peers : list string;
  pubkey : option string;
  tunneladdress : string;
  netmask : Z;
  port : option string
}.

Record client_conf := ClientConf {
  net_range : list Z
}.

Definition missing {A} (o : option A) : bool :=
  match o with
  | None => true
  | Some _ => false
  end.

(** [error_message.append(field)] under a condition. *)
Definition note (cond : bool) (field : string) (error_message : list string)
    : list string :=
  if cond then (error_message ++ [field])%list else error_message.

(** [uuid in peers] for an optional uuid. *)
Definition listed (uuid : option string) (peers : list string) : bool :=
  match uuid with
  | Some u => existsb (String.eqb u) peers
  | None => false
  end.

(** Lines 424-430 of [parse_server_details]: the peers field as a list. *)
Definition parse_peers (peers : option string) : list string :=
  match peers with
  | None => []
  | Some p =>
      if String.eqb p "" then []
      else if (PyStr.count p "," =? 0)%nat then [p]
      else PyStr.split p ","
  end.

Section Script.

Context {L : PyLib}.
Variable E : env.

(** [def parse_server_details(server)] *)
Definition parse_server_details (server : Element) : py (server_conf * client_conf) :=
  let error_message : list string := [] in
  let pubkey := ET.findtext server "pubkey" in
  let error_message := note (missing pubkey) "public key (pubkey)" error_message in
  let tunneladdress := ET.findtext server "tunneladdress" in
  let error_message := note (missing tunneladdress) "tunneladdress" error_message in
  (* Parse out ip address: ip_network(None) raises as well. *)
  let net := ta ← tunneladdress; ip_network ta false in
  let error_message := note (missing net) "available ip range" error_message in
  match net, tunneladdress with
  | None, _ =>
      (* [net.hosts()] with [net] never assigned *)
      raise UnboundLocalError
  | Some _, None => raise AttributeError
  | Some net, Some tunneladdress =>
      (* get a list of all the valid ips for this range, and the netmask *)
      let net_range := IP.hosts net in
      let netmask := IP.prefixlen net in
      (* remove the netmask *)
      let tunneladdress := PyStr.replace tunneladdress ("/" +:+ pretty netmask) "" in
      (* parse the actual ip and remove it from range; [except ValueError:
         pass] takes both the parse error and the absent address, which are
         the only exceptions of this statement *)
      let net_range :=
        match ip_address tunneladdress with
        | Some a => default net_range (list_remove a net_range)
        | None => net_range
        end in
      let port := ET.findtext server "port" in
      let error_message := note (missing port) "port" error_message in
      let peers := parse_peers (ET.findtext server "peers") in
      if negb (length error_message =? 0)%nat then
        print "We couldn't parse these fields:" ;;
        print (PyStr.join nl error_message) ;;
        exit (-1)
      else
        ret (ServerConf peers pubkey tunneladdress netmask port,
             ClientConf net_range)
  end.

(** [def check_package(name, source)] *)
Definition check_package (name source : string) : py bool :=
  print ("Checking for package " +:+ name +:+ "...") ;;
  run ("pkg info " +:+ name) ;;
  if pkg_info E name then
    print "found!" ;; ret true
  else
    print ("not found!" +:+ nl +:+ "Attempting to install...") ;;
    run ("pkg add " +:+ source) ;;
    if pkg_add E source then
      print "Successful!" ;; ret true
    else
      print "Failed to install: {p." ;; ret false.

(** [def install_packages()] *)
Definition install_packages : py bool :=
  png <- check_package "png" PNG_PKG ;;
  if negb png then
    print "This is a dependency. Will continue without qr code Support." ;;
    ret false
  else
    qr <- check_package "libqrencode" QR_PKG ;;
    if negb qr then
      print "The libqrencode package generates the QR code. Will continue without QR code support." ;;
      ret false
    else ret true.

(** *** [main], in the order of the script *)

(** Lines 45-65: the banner and the package question. *)
Definition ask_packages : py bool :=
  print "OPNsense wireguard config script" ;;
  print ("---------------------------------------------------------------------" +:+ nl +:+ nl) ;;
  let can_qr := false in
  if package_prompt then
    print "First off, in order to display a qrcode at the end of the process, " ;;
    print "we'll need some unsupported packages that I have not vetted fully." ;;
    print "They've worked fine for me since OPNsense 21.7.x-amd64. Should I install" ;;
    print ("these libraries? You can't blame me if this breaks your appliance." +:+ nl) ;;
    print "(y) Attempt to install packages" ;;
    print "(n) Skip packages, handle the config yourself" ;;
    print "(q) Quit the program without doing anything" ;;
    add_pkg <- input "(y/n/q): " ;;
    match parse_actions add_pkg [("y", install_packages); ("q", user_quit)] None with
    | Some action => action
    | None => ret can_qr
    end
  else install_packages.

(** Lines 67-90: read and parse the config. The parse error is named
    [ParseError] in the [except] clause, a name the script never binds, so
    a parse error leaves as [NameError]. *)
Definition load_config : py Element :=
  print "Reading config.xml..." ;;
  config_xml <-
    (fun w =>
       match fs w !! opnsense_config_xml with
       | None => (print "Failed. Can't find the file?" ;; exit (-1)) w
       | Some bytes =>
           if read_config E then (print "Successful!" ;; ret bytes) w
           else (print "Failed. Unknown issue with config file." ;; exit (-1)) w
       end) ;;
  print "Attempting to parse the config..." ;;
  match fromstring config_xml with
  | Some root => ret root
  | None => raise NameError
  end.

(** Lines 101-104 *)
Fixpoint list_servers (servers : list Element) : py unit :=
  match servers with
  | [] => ret tt
  | server :: rest =>
      match ET.find server "name", ET.find server "instance" with
      | Some name, Some instance =>
          print (PyStr.fmt (text name) +:+ ": " +:+ PyStr.fmt (text instance)) ;;
          list_servers rest
      | _, _ => raise AttributeError
      end
  end.

(** Lines 91-125: choose the server. *)
Definition select_server (root : Element) : py (ET.path * Element) :=
  print "Getting wireguard instances..." ;;
  let servers := ET.findall root servers_path in
  let servers_count := length servers in
  (if (servers_count =? 0)%nat
   then print "Could not find any server instances." ;; exit (-1)
   else ret tt) ;;
  print ("Found " +:+ pretty servers_count +:+ ":") ;;
  list_servers (map snd servers) ;;
  this_instance <-
    (if user_prompts then
       print (nl +:+ "Which instance number do you want to add a client to?") ;;
       answer <- input ("0 to " +:+ pretty servers_count +:+ ", (blank defaults to ("
                        +:+ default_instance +:+ ")): ") ;;
       ret (PyStr.or_default answer default_instance)
     else ret default_instance) ;;
  invalid <-
    (if String.eqb this_instance "" then ret true
     else if negb (String.eqb (PyStr.lower this_instance) (PyStr.upper this_instance))
     then ret true
     else match int this_instance with
          | Some n => ret (Z.of_nat servers_count <? n)%Z
          | None => raise ValueError
          end) ;;
  (if invalid : bool then user_quit else ret tt) ;;
  print ("You selected " +:+ this_instance +:+ ". Let me load that server...") ;;
  server <- lift (first (ET.findall root (server_path this_instance))) ;;
  print "Got it!" ;;
  ret server.

(** Line 137: [ip_network(client.findtext("tunneladdress")).network_address];
    [None] when [ip_network] raises. *)
Definition used_client_ip (client : Element) : option Z :=
  net ← (ta ← ET.findtext client "tunneladdress"; ip_network ta true);
  Some (IP.network_address net).

(** Lines 132-141: take the address of every client that is a peer of the
    server out of the range. *)
Fixpoint scan_clients (peers : list string) (clients : list Element)
    (client_count : nat) (net_range : list Z) : py (nat * list Z) :=
  match clients with
  | [] => ret (client_count, net_range)
  | client :: rest =>
      if listed (ET.get client "uuid") peers then
        let client_count := S client_count in
        match used_client_ip client with
        | Some ip =>
            match list_remove ip net_range with
            | Some net_range => scan_clients peers rest client_count net_range
            | None => print "Failed..." ;; exit (-1)
            end
        | None => print "Failed..." ;; exit (-1)
        end
      else scan_clients peers rest client_count net_range
  end.

(** Lines 127-148: the server's details, the clients' addresses, and the
    first address left: the result is the server's dictionary, the number of
    peers seen, and the new client's uuid and tunnel address. *)
Definition allocate (root : Element) (server : Element)
    : py (server_conf * nat * string * string) :=
  print "Parsing server config for instance..." ;;
  confs <- parse_server_details server ;;
  print "Done!" ;;
  print "Parsing client config for instance..." ;;
  scanned <- scan_clients (peers (fst confs))
               (map snd (ET.findall root clients_path))
               0 (net_range (snd confs)) ;;
  (* and now we have a clean ip range with no duplicates! *)
  safe_ip <- lift (first (snd scanned)) ;;
  let tunneladdress := IP.to_string safe_ip +:+ "/32" in
  let uuid := uuid4 E in
  print "Done!" ;;
  ret (fst confs, fst scanned, uuid, tunneladdress).

(** Lines 150-161: the client's key pair and the shared key. *)
Definition generate_keys : py (string * string * string) :=
  print "Attempting to generate keys..." ;;
  keys <- try_except
    (privkey <- check_output "wg genkey" (wg_genkey E) ;;
     let privkey := rstrip_nl privkey in
     pubkey <- check_output ("echo " +:+ privkey +:+ " | wg pubkey")
                            (wg_pubkey E privkey) ;;
     let pubkey := rstrip_nl pubkey in
     shared_key <- check_output "wg genpsk" (wg_genpsk E) ;;
     let shared_key := rstrip_nl shared_key in
     ret (privkey, pubkey, shared_key))
    (print "failed!" ;; exit (-1)) ;;
  print "Successful!" ;;
  ret keys.

(** A question with a default, as lines 163-167, 173-177 and 185-189 ask
    it. *)
Definition ask (question default : string) : py string :=
  if user_prompts then
    print question ;;
    answer <- input ("blank defaults to (" +:+ default +:+ "): ") ;;
    ret (PyStr.or_default answer default)
  else ret default.

(** Lines 163-201: endpoint, dns, client name, and the last confirmation. *)
Definition ask_settings (client_count : nat) : py (string * string * string) :=
  endpoint <- ask "What server endpoint will this client use?" default_endpoint ;;
  print ("Ok, going with (" +:+ endpoint +:+ ")" +:+ nl) ;;
  dns <- ask "What dns server will this client use?" default_dns ;;
  print ("Ok, going with (" +:+ dns +:+ ")" +:+ nl) ;;
  let generated_client_name := default_client client_count in
  client_name <- ask "What name should we assign to this client?" generated_client_name ;;
  print ("Ok, going with (" +:+ client_name +:+ ")" +:+ nl) ;;
  (if user_prompts then
     print "Are you absolutely sure you want to continue at this point?" ;;
     print "Things get permanent after this and wireguard will restart once done." ;;
     you_sure <- input "y to continue, anything else will bail: " ;;
     if negb (String.eqb (PyStr.lower you_sure) "y") then user_quit else ret tt
   else ret tt) ;;
  ret (endpoint, dns, client_name).

(** Lines 204-210: the backup. *)
Definition backup_config : py unit :=
  print "Backing up xml file..." ;;
  try_except
    (copy2 (backup_copy E) opnsense_config_xml backup_path)
    (print "Unable to backup xml file. Not proceeding!" ;; exit (-1)) ;;
  print ("Backup successful" +:+ nl).

(** The children of the new client element, lines 220-229. *)
Definition client_children (name pubkey psk tunneladdress : string)
    (serverport : option string) : list (string * option string) :=
  [("enabled", Some "0");
   ("name", Some name);
   ("pubkey", Some pubkey);
   ("psk", Some psk);
   ("tunneladdress", Some tunneladdress);
   ("serveraddress", None);
   ("serverport", serverport);
   ("keepalive", Some "25")].

(** Lines 213-235: the new client element under the clients node, and the
    new uuid at the end of the server's peers. The result is the tree after
    the two updates. *)
Definition edit_config (root : Element) (server : ET.path) (conf : server_conf)
    (uuid name pubkey psk tunneladdress : string) : outcome Element :=
  match first (ET.findall root clients_node_path) with
  | Exit c => Exit c
  | Raise e => Raise e
  | Ret clients_node =>
      match add_formatted_subelement (snd clients_node) "client" [("uuid", uuid)]
              (client_children name pubkey psk tunneladdress (port conf)) "  " with
      | Exit c => Exit c
      | Raise e => Raise e
      | Ret node =>
          let root := ET.update_at (fst clients_node) (fun _ => node) root in
          (* add client to server peer list *)
          let peers := (peers conf ++ [uuid])%list in
          match s ← ET.get_at root server; ET.find_index "peers" (children s) with
          | Some i =>
              Ret (ET.update_at (server ++ [i])%list
                     (ET.set_text (Some (PyStr.join "," peers))) root)
          | None => Raise AttributeError
          end
      end
  end.

(** Lines 238-253: write the tree; on failure copy the backup back. *)
Definition save_config (root : Element) : py unit :=
  print "Attempting to save xml file..." ;;
  write_succeeded <- try_except
    (write_file (save_write E) opnsense_config_xml (tostring root) ;; ret true)
    (ret false) ;;
  (if negb write_succeeded then
     print "Error writing xml file. Restoring backup, just in case..." ;;
     try_except
       (copy2 (restore_copy E) backup_path opnsense_config_xml)
       (print "Can't restore xml. You'll need to fix this yourself. Sorry!" ;;
        exit (-1))
   else ret tt) ;;
  print "Done!".

(** Lines 257-269 *)
Definition client_text (privkey tunneladdress dns : string)
    (server_pubkey : option string) (psk endpoint : string) : string :=
  nl +:+
  "    [Interface]" +:+ nl +:+
  "    PrivateKey = " +:+ privkey +:+ nl +:+
  "    Address = " +:+ tunneladdress +:+ nl +:+
  "    DNS = " +:+ dns +:+ nl +:+
  nl +:+
  "    [Peer]" +:+ nl +:+
  "    PublicKey = " +:+ PyStr.fmt server_pubkey +:+ nl +:+
  "    PresharedKey = " +:+ psk +:+ nl +:+
  "    AllowedIPs = " +:+ default_network +:+ nl +:+
  "    Endpoint = " +:+ endpoint +:+ nl +:+
  "    PersistentKeepalive = 25" +:+ nl +:+
  "    ".

(** Lines 255-297: the client's .conf file, the restart, the QR code. *)
Definition finish (can_qr : bool) (client_name content : string) : py unit :=
  print "Attempting to create config file..." ;;
  let client_filename := client_name +:+ ".conf" in
  let client_png := client_name +:+ ".png" in
  write_file (conf_write E) client_filename content ;;
  run "configctl wireguard restart" ;;
  (if restart E then ret tt
   else print "No biggie, but you'll need to save and restart wireguard yourself.") ;;
  (if can_qr then
     run ("qrencode -t png -o " +:+ client_png +:+ " < " +:+ client_filename) ;;
     if display_qr then
       input "Displaying QR code. Maximize your screen and hit enter when ready" ;;
       run ("qrencode -t ansiutf8 < " +:+ client_filename)
     else ret tt
   else ret tt) ;;
  print "Done. Now you just need to go into OPNSense, enable the client and hit save!" ;;
  print "There are also .conf (and .png) files for the new client in the root folder. Be sure to secure them.".

(** What [main] has in hand when it reaches the backup (line 204). *)
Record plan := Plan {
  can_qr : bool;
  root : Element;
  server : ET.path;
  conf : server_conf;
  uuid : string;
  client_tunneladdress : string;
  privkey : string;
  client_pubkey : string;
  psk : string;
  endpoint : string;
  dns : string;
  client_name : string
}.

(** Lines 45-201: everything before the backup. *)
Definition prepare : py plan :=
  can_qr <- ask_packages ;;
  root <- load_config ;;
  server <- select_server root ;;
  found <- allocate root (snd server) ;;
  let conf := fst (fst (fst found)) in
  let client_count := snd (fst (fst found)) in
  let uuid := snd (fst found) in
  let tunneladdress := snd found in
  keys <- generate_keys ;;
  settings <- ask_settings client_count ;;
  let endpoint := fst (fst settings) +:+ ":" +:+ PyStr.fmt (port conf) in
  ret (Plan can_qr root (fst server) conf uuid tunneladdress
            (fst (fst keys)) (snd (fst keys)) (snd keys)
            endpoint (snd (fst settings)) (snd settings)).

(** Lines 204-253: the backup, the edit of the tree and the write. *)
Definition write_config (p : plan) : py unit :=
  backup_config ;;
  print "Attempting to edit xml file..." ;;
  edited <- lift (edit_config (root p) (server p) (conf p) (uuid p)
                    (client_name p) (client_pubkey p) (psk p)
                    (client_tunneladdress p)) ;;
  print "Done..." ;;
  save_config edited.

(** Lines 204-297: from the backup to the end. *)
Definition commit (p : plan) : py unit :=
  write_config p ;;
  finish (can_qr p) (client_name p)
    (client_text (privkey p) (client_tunneladdress p) (dns p)
                 (pubkey (conf p)) (psk p) (endpoint p)).

(** [def main()] *)
Definition main : py unit :=
  p <- prepare ;;
  commit p.

End Script.

(** ** A concrete library for the examples

    The IPv4 part of [ipaddress] on dotted-quad strings, [int] on decimal
    digits, ElementTree's XML writer, and a parser that knows the documents
    of the examples. *)

Module Concrete.

Open Scope Z_scope.

Definition is_digit (c : ascii) : bool :=
  (48 <=? nat_of_ascii c)%nat && (nat_of_ascii c <=? 57)%nat.

Fixpoint digits (acc : Z) (s : string) : option Z :=
  match s with
  | "" => Some acc
  | String c s' =>
      if is_digit c
      then digits (10 * acc + Z.of_nat (nat_of_ascii c - 48)) s'
      else None
  end.

(** A non-empty string of decimal digits. *)
Definition decimal (s : string) : option Z :=
  match s with
  | "" => None
  | _ => digits 0 s
  end.

(** One octet: at most three digits, no leading zero, at most 255. *)
Definition parse_octet (s : string) : option Z :=
  if (3 <? String.length s)%nat then None
  else if (1 <? String.length s)%nat && String.prefix "0" s then None
  else v ← decimal s; if v <=? 255 then Some v else None.

Definition parse_ip (s : string) : option Z :=
  match PyStr.split s "." with
  | [a; b; c; d] =>
      a ← parse_octet a; b ← parse_octet b; c ← parse_octet c; d ← parse_octet d;
      Some (Z.shiftl a 24 + Z.shiftl b 16 + Z.shiftl c 8 + d)
  | _ => None
  end.

Definition all_ones : Z := Z.ones 32.

(** The prefix length whose netmask is [m]. *)
Definition prefix_of_netmask (m : Z) : option Z :=
  List.find (fun p => Z.lxor all_ones (Z.ones (32 - p)) =? m)
            (map Z.of_nat (seq 0 33)).

(** The part after the slash: a prefix length, a netmask or a hostmask. *)
Definition parse_mask (s : string) : option Z :=
  match decimal s with
  | Some p => if p <=? 32 then Some p else None
  | None =>
      m ← parse_ip s;
      match prefix_of_netmask m with
      | Some p => Some p
      | None => prefix_of_netmask (Z.lxor m all_ones)
      end
  end.

Definition ipv4_network (s : string) (strict : bool) : option IP.IPv4Network :=
  match PyStr.split s "/" with
  | [a] => ip ← parse_ip a; Some (IP.Network ip 32)
  | [a; m] =>
      ip ← parse_ip a;
      p ← parse_mask m;
      let net := IP.Network (Z.land ip (Z.lxor all_ones (Z.ones (32 - p)))) p in
      if strict && negb (Z.land ip (Z.ones (32 - p)) =? 0) then None
      else Some net
  | _ => None
  end.

Definition escape (table : list (ascii * string)) (s : string) : string :=
  (fix go (s : string) : string :=
     match s with
     | "" => ""
     | String c s' =>
         match List.find (fun e => Ascii.eqb (fst e) c) table with
         | Some e => snd e +:+ go s'
         | None => String c (go s')
         end
     end) s.

Definition escape_cdata : string -> string :=
  escape [("&"%char, "&amp;"); ("<"%char, "&lt;"); (">"%char, "&gt;")].

Definition quote : ascii := ascii_of_nat 34.

Definition escape_attrib : string -> string :=
  escape [("&"%char, "&amp;"); ("<"%char, "&lt;"); (">"%char, "&gt;");
          (quote, "&quot;"); (ascii_of_nat 13, "&#13;");
          (ascii_of_nat 10, "&#10;"); (ascii_of_nat 9, "&#09;")].

Definition nonempty (o : option string) : bool :=
  match o with
  | Some (String _ _) => true
  | _ => false
  end.

(** ElementTree's XML writer: start tag with the attributes, text,
    children, end tag (or the short form of an element with neither text
    nor children), then the tail. *)
Fixpoint serialize_xml (e : Element) : string :=
  let items :=
    foldr (fun kv acc => " " +:+ fst kv +:+ "=" +:+ String quote "" +:+
                         escape_attrib (snd kv) +:+ String quote "" +:+ acc)
          "" (attrib e) in
  let inner :=
    (fix over (cs : list Element) : string :=
       match cs with
       | [] => ""
       | c :: rest => serialize_xml c +:+ over rest
       end) (children e) in
  "<" +:+ tag e +:+ items +:+
  (if nonempty (text e) || (0 <? length (children e))%nat
   then ">" +:+ escape_cdata (default "" (text e)) +:+ inner +:+ "</" +:+ tag e +:+ ">"
   else " />") +:+
  escape_cdata (default "" (tail e)).

(** A parser for a known set of documents: the document whose written form
    is the input. *)
Definition parse_known (known : list Element) (s : string) : option Element :=
  List.find (fun e => String.eqb (serialize_xml e) s) known.

Definition lib (known : list Element) : PyLib :=
  {| fromstring := parse_known known;
     tostring := serialize_xml;
     ip_network := ipv4_network;
     ip_address := parse_ip;
     int := decimal |}.

End Concrete.

(** ** Example documents *)

Module Examples.

(** A newline and [n] spaces. *)
Definition pad (n : nat) : option string :=
  Some (nl +:+ PyStr.repeat " " n).

(** The fields of a record at depth [d] of a document indented by [u]
    spaces: each on a line of its own, the last one followed by the
    indentation of the record's end tag. *)
Definition fields (u d : nat) (kvs : list (string * string)) : list Element :=
  alter (ET.set_tail (pad (u * (d - 1)))) (length kvs - 1)
        (map (fun kv => Elem (fst kv) [] (Some (snd kv)) (pad (u * d)) []) kvs).

(** The records of a container at depth [d]: [(uuid, fields)] each. *)
Definition records (u d : nat) (name : string)
    (rs : list (string * list (string * string))) : list Element :=
  alter (ET.set_tail (pad (u * (d - 1)))) (length rs - 1)
        (map (fun r => Elem name [("uuid", fst r)] (pad (u * (d + 1))) (pad (u * d))
                            (fields u (d + 1) (snd r))) rs).

(** A config.xml with the WireGuard servers and clients given, indented by
    [u] spaces. *)
Definition config (u : nat) (servers clients : list (string * list (string * string)))
    : Element :=
  Elem "opnsense" [] (pad (u * 1)) None
    [Elem "OPNsense" [] (pad (u * 2)) (pad 0)
      [Elem "wireguard" [] (pad (u * 3)) (pad (u * 1))
        [Elem "server" [("version", "0.0.4")] (pad (u * 4)) (pad (u * 3))
           [Elem "servers" [] (pad (u * 5)) (pad (u * 3)) (records u 5 "server" servers)];
         Elem "client" [("version", "0.0.7")] (pad (u * 4)) (pad (u * 2))
           [Elem "clients" [] (pad (u * 5)) (pad (u * 3)) (records u 5 "client" clients)]]]].

Definition server_fields (tunneladdress peers : string) : list (string * string) :=
  [("enabled", "1"); ("name", "wg0"); ("instance", "0");
   ("pubkey", "SERVERPUBKEY"); ("port", "51820");
   ("tunneladdress", tunneladdress); ("peers", peers)].

Definition client_fields (name tunneladdress : string) : list (string * string) :=
  [("enabled", "1"); ("name", name); ("pubkey", "CLIENTPUBKEY");
   ("tunneladdress", tunneladdress); ("keepalive", "25")].

(** The server 10.0.0.1/24 with one peer at 10.0.0.2/32. *)
Definition one_peer : Element :=
  config 2 [("S", server_fields "10.0.0.1/24" "A")]
           [("A", client_fields "phone" "10.0.0.2/32")].

(** Two peers of the server with the same address. *)
Definition same_address : Element :=
  config 2 [("S", server_fields "10.0.0.1/24" "A,B")]
           [("A", client_fields "phone" "10.0.0.2/32");
            ("B", client_fields "laptop" "10.0.0.2/32")].

(** A peer whose tunneladdress is a list of two networks. *)
Definition two_networks : Element :=
  config 2 [("S", server_fields "10.0.0.1/24" "A,B")]
           [("A", client_fields "phone" "10.0.0.2/32,fd00::2/128");
            ("B", client_fields "laptop" "10.0.0.3/32")].

(** A server record without tunneladdress and without pubkey. *)
Definition no_tunneladdress : Element :=
  config 2 [("S", [("enabled", "1"); ("name", "wg0"); ("instance", "0");
                   ("port", "51820"); ("peers", "")])] [].

(** A server record without pubkey and without port. *)
Definition no_pubkey_no_port : Element :=
  config 2 [("S", [("enabled", "1"); ("name", "wg0"); ("instance", "0");
                   ("tunneladdress", "10.0.0.1/24"); ("peers", "")])] [].

(** A server whose tunneladdress gives the mask in dotted form. *)
Definition dotted_mask : Element :=
  config 2 [("S", server_fields "10.0.0.1/255.255.255.0" "")] [].

(** A document indented by four spaces, with two peers. *)
Definition four_spaces : Element :=
  config 4 [("S", server_fields "10.0.0.1/24" "A,B")]
           [("A", client_fields "phone" "10.0.0.2/32");
            ("B", client_fields "laptop" "10.0.0.3/32")].

Definition documents : list Element :=
  [one_peer; same_address; two_networks; no_tunneladdress; no_pubkey_no_port;
   dotted_mask; four_spaces].

Definition lib : PyLib := Concrete.lib documents.

(** Every command succeeds and every file operation works. *)
Definition fine : env :=
  {| pkg_info := fun _ => true;
     pkg_add := fun _ => true;
     wg_genkey := Some ("PRIVATEKEY" +:+ nl);
     wg_pubkey := fun _ => Some ("PUBLICKEY" +:+ nl);
     wg_genpsk := Some ("SHAREDKEY" +:+ nl);
     uuid4 := "X";
     read_config := true;
     backup_copy := Done;
     save_write := Done;
     restore_copy := Done;
     conf_write := Done;
     restart := true |}.

(** The write of the document fails half way. *)
Definition write_fails : env :=
  {| pkg_info := fun _ => true;
     pkg_add := fun _ => true;
     wg_genkey := Some ("PRIVATEKEY" +:+ nl);
     wg_pubkey := fun _ => Some ("PUBLICKEY" +:+ nl);
     wg_genpsk := Some ("SHAREDKEY" +:+ nl);
     uuid4 := "X";
     read_config := true;
     backup_copy := Done;
     save_write := Failed (Some "<opnsense>");
     restore_copy := Done;
     conf_write := Done;
     restart := true |}.

(** The operator declines the packages, takes every default and confirms. *)
Definition answers : list string := ["n"; ""; ""; ""; ""; "y"].

Definition disk (doc : Element) : world :=
  {| fs := {[ opnsense_config_xml := Concrete.serialize_xml doc ]};
     stdin := answers;
     log := [] |}.

(** The copy to the backup path fails. *)
Definition backup_fails : env :=
  {| pkg_info := fun _ => true;
     pkg_add := fun _ => true;
     wg_genkey := Some ("PRIVATEKEY" +:+ nl);
     wg_pubkey := fun _ => Some ("PUBLICKEY" +:+ nl);
     wg_genpsk := Some ("SHAREDKEY" +:+ nl);
     uuid4 := "X";
     read_config := true;
     backup_copy := Failed None;
     save_write := Done;
     restore_copy := Done;
     conf_write := Done;
     restart := true |}.

(** The server record of instance 0, with its place in the document. *)
Definition server_at (doc : Element) : ET.path * Element :=
  default ([], doc) (head (ET.findall doc (server_path "0"))).

(** The addresses of the examples. *)
Definition net_10_0_0_0 : IP.IPv4Network := IP.Network 167772160 24.
Definition ip_10_0_0_2 : Z := 167772162.

(** What [parse_server_details] returns for the server of [four_spaces]. *)
Definition four_spaces_conf : server_conf :=
  ServerConf ["A"; "B"] (Some "SERVERPUBKEY") "10.0.0.1" 24 (Some "51820").

(** [four_spaces] after the edit that adds the client X at 10.0.0.4. *)
Definition four_spaces_edited : Element :=
  Eval vm_compute in
    match edit_config four_spaces (fst (server_at four_spaces)) four_spaces_conf
            "X" "client2" "PUBLICKEY" "SHAREDKEY" "10.0.0.4/32" with
    | Ret edited => edited
    | _ => four_spaces
    end.

End Examples.

(** ** Vocabulary of the statements *)

(** The removals of [scan_clients], one after the other; [None] when one of
    them does not find its address. *)
Fixpoint remove_all (ps : list Z) (l : list Z) : option (list Z) :=
  match ps with
  | [] => Some l
  | p :: rest => l' ← list_remove p l; remove_all rest l'
  end.


(** A computation that does not return. *)
Definition fails {A} (r : outcome A) : Prop :=
  match r with
  | Ret _ => False
  | _ => True
  end.

(** An event that writes the config file. *)
Definition writes_config (ev : event) : bool :=
  match ev with
  | Wrote file _ => String.eqb file opnsense_config_xml
  | Copied _ dst _ => String.eqb dst opnsense_config_xml
  | _ => false
  end.

(** An event that is neither a copy nor a write of the config file. *)
Definition harmless (ev : event) : bool :=
  match ev with
  | Printed _ | Ran _ => true
  | Wrote file _ => negb (String.eqb file opnsense_config_xml)
  | Copied _ _ _ => false
  end.

(** The last character of a string. *)
Fixpoint last_char (s : string) : option ascii :=
  match s with
  | "" => None
  | String c "" => Some c
  | String _ s' => last_char s'
  end.

(** Events can be compared. *)
Global Instance event_eq_dec : EqDecision event.
Proof. solve_decision. Defined.

(** An event that is no file operation. *)
Definition quiet (ev : event) : Prop :=
  match ev with
  | Printed _ | Ran _ => True
  | _ => False
  end.

(** A computation that leaves every file as it is: it only prints, reads
    the terminal and runs commands. *)
Definition steady {A} (m : py A) : Prop :=
  ∀ w, fs (snd (m w)) = fs w ∧
       ∃ evs, log (snd (m w)) = (log w ++ evs)%list ∧ Forall quiet evs.

(** A computation that keeps the config file and its backup, never leaves
    by [exit], and whose events are harmless. *)
Definition gentle {A} (m : py A) : Prop :=
  ∀ w, fs (snd (m w)) !! opnsense_config_xml = fs w !! opnsense_config_xml ∧
       fs (snd (m w)) !! backup_path = fs w !! backup_path ∧
       (∀ c, fst (m w) ≠ Exit c) ∧
       ∃ evs, log (snd (m w)) = (log w ++ evs)%list ∧
              Forall (λ ev, harmless ev = true) evs.

Section Vocabulary.

Context {L : PyLib}.
Variable E : env.

(** What [parse_server_details] leaves of the range: the hosts of the
    network without the server's own address, when that address parses. *)
Definition server_range (net : IP.IPv4Network) (tunneladdress : string) : list Z :=
  match
    ip_address (PyStr.replace tunneladdress ("/" +:+ pretty (IP.prefixlen net)) "")
  with
  | Some a => default (IP.hosts net) (list_remove a (IP.hosts net))
  | None => IP.hosts net
  end.

(** The clients of the document that the peers list names. *)
Definition listed_clients (peers : list string) (clients : list Element) : list Element :=
  List.filter (fun c => listed (ET.get c "uuid") peers) clients.

(** The world after [print("Failed...")]. *)
Definition failed (w : world) : world :=
  World (fs w) (stdin w) (log w ++ [Printed "Failed..."]).

(** The clients that are peers of the server, in document order. *)
Definition peers_of (root server : Element) : list Element :=
  listed_clients (parse_peers (ET.findtext server "peers"))
                 (map snd (ET.findall root clients_path)).



End Vocabulary.

(** ** Further examples *)

Module Cases.

Import Examples.

(** [one_peer] with nothing between the end tag of the clients container
    and the next tag. *)
Definition compact : Element :=
  ET.update_at [0; 0; 1; 0] (ET.set_tail None) one_peer.

Definition compact_lib : PyLib := Concrete.lib [compact].

(** A config.xml without any server. *)
Definition no_server : Element := config 2 [] [].

(** A server record without a name. *)
Definition nameless : Element :=
  config 2 [("S", [("enabled", "1"); ("instance", "0"); ("pubkey", "SERVERPUBKEY");
                   ("port", "51820"); ("tunneladdress", "10.0.0.1/24");
                   ("peers", "")])] [].

(** The client's .conf file cannot be written. *)
Definition conf_fails : env :=
  {| pkg_info := fun _ => true;
     pkg_add := fun _ => true;
     wg_genkey := Some ("PRIVATEKEY" +:+ nl);
     wg_pubkey := fun _ => Some ("PUBLICKEY" +:+ nl);
     wg_genpsk := Some ("SHAREDKEY" +:+ nl);
     uuid4 := "X";
     read_config := true;
     backup_copy := Done;
     save_write := Done;
     restore_copy := Done;
     conf_write := Failed None;
     restart := true |}.

(** The write of the document fails, and so does the copy of the backup
    over it, which leaves no file. *)
Definition restore_fails : env :=
  {| pkg_info := fun _ => true;
     pkg_add := fun _ => true;
     wg_genkey := Some ("PRIVATEKEY" +:+ nl);
     wg_pubkey := fun _ => Some ("PUBLICKEY" +:+ nl);
     wg_genpsk := Some ("SHAREDKEY" +:+ nl);
     uuid4 := "X";
     read_config := true;
     backup_copy := Done;
     save_write := Failed (Some "<opnsense>");
     restore_copy := Failed None;
     conf_write := Done;
     restart := true |}.

(** The document on disk and the given lines typed at the terminal. *)
Definition typed (doc : Element) (lines : list string) : world :=
  {| fs := fs (disk doc); stdin := lines; log := [] |}.

(** A config file that is no XML. *)
Definition broken_disk : world :=
  {| fs := {[ opnsense_config_xml := "<opnsense>" ]}; stdin := answers; log := [] |}.

(** No config file. *)
Definition empty_disk : world :=
  {| fs := ∅; stdin := answers; log := [] |}.

(** What [parse_server_details] returns for the server of [one_peer]. *)
Definition one_peer_conf : server_conf :=
  ServerConf ["A"] (Some "SERVERPUBKEY") "10.0.0.1" 24 (Some "51820").

(** What the run on a document like [one_peer] has in hand at the backup,
    with [answers] typed. *)
Definition plan_of (doc : Element) : plan :=
  Plan false doc (fst (server_at doc)) one_peer_conf "X" "10.0.0.3/32"
       "PRIVATEKEY" "PUBLICKEY" "SHAREDKEY"
       "server.address.com:51820" "192.168.0.1" "client1".

(** [one_peer] after the edit that adds the client X at 10.0.0.3. *)
Definition one_peer_edited : Element :=
  Eval vm_compute in
    match edit_config one_peer (fst (server_at one_peer)) one_peer_conf
            "X" "client1" "PUBLICKEY" "SHAREDKEY" "10.0.0.3/32" with
    | Ret edited => edited
    | _ => one_peer
    end.

End Cases.

(** * Properties *)

(** ** Strings *)

Section Strings.

Import PyStr.

Lemma append_nil (s : string) : "" +:+ s = s.
Proof. reflexivity. Qed.

Lemma append_cons (c : ascii) (s t : string) :
  String c s +:+ t = String c (s +:+ t).
Proof. reflexivity. Qed.

Lemma append_empty_r (s : string) : s +:+ "" = s.
Proof.
  induction s as [|c s IH]; [reflexivity|].
  rewrite append_cons. f_equal. exact IH.
Qed.

Lemma append_assoc (a b c : string) : (a +:+ b) +:+ c = a +:+ (b +:+ c).
Proof.
  induction a as [|x a IH]; [reflexivity|].
  rewrite !append_cons. f_equal. exact IH.
Qed.

Lemma split_from_cons (sep : ascii) (cur s : string) :
  ∃ x rest, split_from sep cur s = x :: rest.
Proof.
  revert cur. induction s as [|c s IH]; intros cur; simpl.
  - eauto.
  - destruct (Ascii.eqb c sep); eauto.
Qed.

(** Joining the pieces of a split with the separator gives the string
    back. *)
Lemma join_split_from (sep : ascii) (cur s : string) :
  join (String sep "") (split_from sep cur s) = cur +:+ s.
Proof.
  revert cur. induction s as [|c s IH]; intros cur; simpl.
  - symmetry. apply append_empty_r.
  - destruct (Ascii.eqb_spec c sep) as [->|Hne].
    + destruct (split_from_cons sep "" s) as (x & rest & Hs).
      specialize (IH ""). rewrite Hs in *.
      change (join (String sep "") (cur :: x :: rest))
        with (cur +:+ String sep "" +:+ join (String sep "") (x :: rest)).
      rewrite IH. reflexivity.
    + rewrite IH, append_assoc. reflexivity.
Qed.

Lemma join_split (s : string) (sep : ascii) :
  join (String sep "") (split s sep) = s.
Proof. apply join_split_from. Qed.

(** Joining a list with one more element at the end. *)
Lemma join_snoc (sep : string) (l : list string) (x : string) :
  join sep (l ++ [x]) =
  match l with
  | [] => x
  | _ => join sep l +:+ sep +:+ x
  end.
Proof.
  induction l as [|a l IH]; [reflexivity|].
  destruct l as [|b l]; [reflexivity|].
  change (join sep ((a :: b :: l) ++ [x]))
    with (a +:+ sep +:+ join sep ((b :: l) ++ [x])).
  rewrite IH. simpl. rewrite !append_assoc. reflexivity.
Qed.

End Strings.

(** The identifiers of a peers field are its comma-separated pieces: joined
    again they give the field. *)
Lemma join_parse_peers (existing : string) :
  PyStr.join "," (parse_peers (Some existing)) = existing.
Proof.
  unfold parse_peers.
  destruct (String.eqb_spec existing "") as [->|Hne]; [reflexivity|].
  destruct (PyStr.count existing "," =? 0)%nat; [reflexivity|].
  apply join_split.
Qed.

Lemma parse_peers_nil (existing : string) :
  parse_peers (Some existing) = [] → existing = "".
Proof.
  unfold parse_peers.
  destruct (String.eqb_spec existing "") as [->|Hne]; [reflexivity|].
  destruct (PyStr.count existing "," =? 0)%nat; [discriminate|].
  unfold PyStr.split.
  destruct (split_from_cons "," "" existing) as (x & rest & ->). discriminate.
Qed.


(** ** Address ranges *)

Section Ranges.

Open Scope Z_scope.














End Ranges.

(** ** The server record *)

Section ServerRecord.

Context {L : PyLib}.

(** With the three fields present and the tunneladdress parsed, the function
    returns, and prints nothing. *)
Lemma parse_server_details_ret (server : Element) (w : world)
    (pk pt ta : string) (net : IP.IPv4Network) :
  ET.findtext server "pubkey" = Some pk →
  ET.findtext server "port" = Some pt →
  ET.findtext server "tunneladdress" = Some ta →
  ip_network ta false = Some net →
  parse_server_details server w =
    (Ret (ServerConf (parse_peers (ET.findtext server "peers")) (Some pk)
            (PyStr.replace ta ("/" +:+ pretty (IP.prefixlen net)) "")
            (IP.prefixlen net) (Some pt),
          ClientConf (server_range net ta)), w).
Proof.
  intros Hpk Hpt Hta Hnet. unfold parse_server_details, server_range.
  rewrite Hpk, Hpt, Hta. simpl. rewrite Hnet. simpl.
  destruct (ip_address _); reflexivity.
Qed.

(** With the tunneladdress parsed, a missing pubkey or port is reported:
    one message with every missing field, then [exit(-1)]. *)
Lemma parse_server_details_reports (server : Element) (w : world)
    (ta : string) (net : IP.IPv4Network) :
  ET.findtext server "tunneladdress" = Some ta →
  ip_network ta false = Some net →
  ET.findtext server "pubkey" = None ∨ ET.findtext server "port" = None →
  parse_server_details server w =
    (Exit (-1),
     World (fs w) (stdin w)
       (log w ++
        [Printed "We couldn't parse these fields:";
         Printed (PyStr.join nl
                  (note (missing (ET.findtext server "pubkey")) "public key (pubkey)" [] ++
                   note (missing (ET.findtext server "port")) "port" []))])).
Proof.
  intros Hta Hnet Hmiss. unfold parse_server_details.
  rewrite Hta. simpl. rewrite Hnet. simpl.
  destruct (ET.findtext server "pubkey") as [pk|], (ET.findtext server "port") as [pt|];
    simpl; try (destruct Hmiss; discriminate);
    unfold bind, print, emit, exit; simpl; rewrite <- app_assoc; reflexivity.
Qed.

End ServerRecord.

(** ** The scan of the clients *)

Section Scan.

Context {L : PyLib}.

(** The loop passes over the clients that are not peers of the server. *)
Lemma scan_clients_listed (peers : list string) (clients : list Element)
    (n : nat) (r : list Z) :
  scan_clients peers clients n r = scan_clients peers (listed_clients peers clients) n r.
Proof.
  revert n r. induction clients as [|c cs IH]; intros n r; [reflexivity|].
  simpl. destruct (listed (ET.get c "uuid") peers) eqn:Hc; simpl; rewrite ?Hc.
  - destruct (used_client_ip c) as [ip|]; [|reflexivity].
    destruct (list_remove ip r); [apply IH | reflexivity].
  - apply IH.
Qed.

(** When every listed client has an address, the loop does the removals in
    order: it returns what is left, or stops at the first address it does
    not find. *)
Lemma scan_clients_addresses (peers : list string) (clients : list Element)
    (ps : list Z) (n : nat) (r : list Z) (w : world) :
  Forall (fun c => listed (ET.get c "uuid") peers = true) clients →
  mapM used_client_ip clients = Some ps →
  scan_clients peers clients n r w =
    match remove_all ps r with
    | Some r' => (Ret (n + length ps, r'), w)
    | None => (Exit (-1), failed w)
    end.
Proof.
  intros Hl Hps%mapM_Some_1. revert n r Hl.
  induction Hps as [|c ip cs ps' Hip Hps IH]; intros n r Hl.
  - simpl. unfold ret. do 3 f_equal. lia.
  - apply Forall_cons in Hl as [Hc Hl]. simpl. rewrite Hc, Hip.
    destruct (list_remove ip r) as [r1|]; simpl; [|reflexivity].
    rewrite (IH (S n) r1 Hl).
    destruct (remove_all ps' r1); [|reflexivity]. do 3 f_equal. lia.
Qed.

(** A listed client without a parseable address stops the loop: it prints
    its message and leaves by [exit(-1)], whatever the other clients are. *)
Lemma scan_clients_unparseable (peers : list string) (clients : list Element)
    (c : Element) (n : nat) (r : list Z) (w : world) :
  c ∈ clients →
  listed (ET.get c "uuid") peers = true →
  used_client_ip c = None →
  scan_clients peers clients n r w = (Exit (-1), failed w).
Proof.
  intros Hin Hc Hip. revert n r.
  induction clients as [|d cs IH]; intros n r; [by apply elem_of_nil in Hin|].
  simpl. apply elem_of_cons in Hin as [<-|Hin].
  - rewrite Hc, Hip. reflexivity.
  - destruct (listed (ET.get d "uuid") peers); [|by apply IH].
    destruct (used_client_ip d) as [ip|]; [|reflexivity].
    destruct (list_remove ip r); [by apply IH | reflexivity].
Qed.

End Scan.

(** ** Allocation *)

Section Allocation.

Context {L : PyLib}.
Variable E : env.

(** The outcome of lines 127-148 for a valid server record whose peers all
    have an address. *)
Lemma allocate_outcome (root server : Element) (w : world)
    (pk pt ta : string) (net : IP.IPv4Network) (ps : list Z) :
  ET.findtext server "pubkey" = Some pk →
  ET.findtext server "port" = Some pt →
  ET.findtext server "tunneladdress" = Some ta →
  ip_network ta false = Some net →
  mapM used_client_ip (peers_of root server) = Some ps →
  fst (allocate E root server w) =
    match remove_all ps (server_range net ta) with
    | Some (x :: _) =>
        Ret (ServerConf (parse_peers (ET.findtext server "peers")) (Some pk)
               (PyStr.replace ta ("/" +:+ pretty (IP.prefixlen net)) "")
               (IP.prefixlen net) (Some pt),
             length ps, uuid4 E, IP.to_string x +:+ "/32")
    | Some [] => Raise IndexError
    | None => Exit (-1)
    end.
Proof.
  intros Hpk Hpt Hta Hnet Hps. unfold allocate, bind, print, emit. simpl.
  rewrite (parse_server_details_ret _ _ pk pt ta net) by assumption. simpl.
  rewrite scan_clients_listed.
  rewrite (scan_clients_addresses _ _ ps); [|apply Forall_forall; intros c Hc|exact Hps].
  - destruct (remove_all ps (server_range net ta)) as [[|x r]|]; reflexivity.
  - apply list_elem_of_In, filter_In in Hc. apply Hc.
Qed.



End Allocation.

Section AllocationClaims.

Context {L : PyLib}.
Variable E : env.


(** At the loop: a client that the server's peers list names and whose
    tunneladdress [ip_network] refuses ends lines 127-148 by
    [print("Failed...")] and [exit(-1)]; its address is not passed over. No
    file is touched. *)
Lemma allocate_unparseable_peer (root server c : Element) (w : world)
    (pk pt ta : string) (net : IP.IPv4Network) :
  ET.findtext server "pubkey" = Some pk →
  ET.findtext server "port" = Some pt →
  ET.findtext server "tunneladdress" = Some ta →
  ip_network ta false = Some net →
  c ∈ peers_of root server →
  used_client_ip c = None →
  fst (allocate E root server w) = Exit (-1) ∧
  fs (snd (allocate E root server w)) = fs w ∧
  log (snd (allocate E root server w)) =
    (log w ++ [Printed "Parsing server config for instance..."; Printed "Done!";
               Printed "Parsing client config for instance..."; Printed "Failed..."])%list.
Proof.
  intros Hpk Hpt Hta Hnet Hc Hip. unfold allocate, bind, print, emit. simpl.
  rewrite (parse_server_details_ret _ _ pk pt ta net) by assumption. simpl.
  rewrite scan_clients_listed.
  assert (Hl : listed (ET.get c "uuid") (parse_peers (ET.findtext server "peers")) = true).
  { apply list_elem_of_In, filter_In in Hc. apply Hc. }
  rewrite (scan_clients_unparseable _ _ c _ _ _ Hc Hl Hip). simpl.
  rewrite <- !app_assoc. auto.
Qed.

End AllocationClaims.

(** ** Which steps touch the files *)

Section Steady.

Lemma steady_ret {A} (a : A) : steady (ret a).
Proof. intros w. split; [reflexivity|]. exists []. by rewrite app_nil_r. Qed.

Lemma steady_exit {A} (c : Z) : steady (@exit A c).
Proof. intros w. split; [reflexivity|]. exists []. by rewrite app_nil_r. Qed.

Lemma steady_raise {A} (e : exn) : steady (@raise A e).
Proof. intros w. split; [reflexivity|]. exists []. by rewrite app_nil_r. Qed.

Lemma steady_lift {A} (r : outcome A) : steady (lift r).
Proof. intros w. split; [reflexivity|]. exists []. by rewrite app_nil_r. Qed.

Lemma steady_print (s : string) : steady (print s).
Proof. intros w. split; [reflexivity|]. exists [Printed s]. by repeat constructor. Qed.

Lemma steady_run (cmd : string) : steady (run cmd).
Proof. intros w. split; [reflexivity|]. exists [Ran cmd]. by repeat constructor. Qed.

Lemma steady_input (prompt : string) : steady (input prompt).
Proof.
  intros w. unfold input. destruct (stdin w); simpl;
    (split; [reflexivity|]; exists [Printed prompt]; by repeat constructor).
Qed.

Lemma steady_bind {A B} (m : py A) (k : A → py B) :
  steady m → (∀ a, steady (k a)) → steady (bind m k).
Proof.
  intros Hm Hk w. unfold bind. destruct (Hm w) as (Hfs & evs & Hlog & Hq).
  destruct (m w) as [[a|c|e] w1]; simpl in *; eauto.
  destruct (Hk a w1) as (Hfs' & evs' & Hlog' & Hq').
  split; [congruence|]. exists (evs ++ evs')%list.
  split; [by rewrite Hlog', Hlog, app_assoc | by apply Forall_app].
Qed.

Lemma steady_try_except {A} (body handler : py A) :
  steady body → steady handler → steady (try_except body handler).
Proof.
  intros Hb Hh w. unfold try_except. destruct (Hb w) as (Hfs & evs & Hlog & Hq).
  destruct (body w) as [[a|c|e] w1]; simpl in *; eauto;
    destruct (Hh w1) as (Hfs' & evs' & Hlog' & Hq');
    (split; [congruence|]; exists (evs ++ evs')%list;
     split; [by rewrite Hlog', Hlog, app_assoc | by apply Forall_app]).
Qed.

Lemma steady_user_quit {A} : steady (@user_quit A).
Proof. apply steady_bind; [apply steady_print | intros; apply steady_exit]. Qed.

End Steady.

Create HintDb steady.
#[export] Hint Resolve steady_ret steady_exit steady_raise steady_lift steady_print
  steady_run steady_input steady_user_quit : steady.

(** Taking a steady computation apart along its binds and case
    distinctions. *)
Ltac steady :=
  repeat first
    [ progress auto with steady
    | apply steady_bind; [|intros]
    | apply steady_try_except
    | match goal with
      | |- steady (if ?b then _ else _) => destruct b
      | |- steady (match ?x with _ => _ end) => destruct x
      end ].

Section SteadyScript.

Context {L : PyLib}.
Variable E : env.

Lemma steady_parse_server_details (server : Element) :
  steady (parse_server_details server).
Proof. unfold parse_server_details. steady. Qed.

Lemma steady_check_package (name source : string) :
  steady (check_package E name source).
Proof. unfold check_package. steady. Qed.

Lemma steady_install_packages : steady (install_packages E).
Proof. unfold install_packages. steady; apply steady_check_package. Qed.

Lemma steady_ask_packages : steady (ask_packages E).
Proof.
  unfold ask_packages, package_prompt.
  repeat (apply steady_bind; [solve [auto with steady] | intros]).
  unfold parse_actions. cbn [List.find fst snd].
  destruct (String.eqb "y" _); [apply steady_install_packages|].
  destruct (String.eqb "q" _); auto with steady.
Qed.

Lemma steady_load_config : steady (load_config E).
Proof.
  unfold load_config. apply steady_bind; [auto with steady|intros _].
  apply steady_bind.
  - intros w. destruct (fs w !! opnsense_config_xml); [destruct (read_config E)|];
      match goal with |- context [?m w] => assert (H : steady m) by steady;
                                           apply (H w) end.
  - intros. steady.
Qed.

Lemma steady_list_servers (servers : list Element) : steady (list_servers servers).
Proof. induction servers as [|s l IH]; simpl; steady. Qed.

Lemma steady_select_server (root : Element) : steady (select_server root).
Proof.
  unfold select_server, user_prompts. steady. apply steady_list_servers.
Qed.

Lemma steady_scan_clients (peers : list string) (clients : list Element)
    (n : nat) (r : list Z) :
  steady (scan_clients peers clients n r).
Proof.
  revert n r. induction clients as [|c cs IH]; intros n r; simpl; steady.
Qed.

Lemma steady_allocate (root server : Element) : steady (allocate E root server).
Proof.
  unfold allocate. steady;
    [apply steady_parse_server_details | apply steady_scan_clients].
Qed.

Lemma steady_check_output (cmd : string) (result : option string) :
  steady (check_output cmd result).
Proof. unfold check_output. steady. Qed.

Lemma steady_generate_keys : steady (generate_keys E).
Proof. unfold generate_keys. steady; apply steady_check_output. Qed.

Lemma steady_ask (question default : string) : steady (ask question default).
Proof. unfold ask, user_prompts. steady. Qed.

Lemma steady_ask_settings (n : nat) : steady (ask_settings n).
Proof. unfold ask_settings, user_prompts. steady; apply steady_ask. Qed.

(** Nothing before the backup touches a file. *)
Lemma steady_prepare : steady (prepare E).
Proof.
  unfold prepare.
  apply steady_bind; [apply steady_ask_packages | intros can_qr].
  apply steady_bind; [apply steady_load_config | intros root].
  apply steady_bind; [apply steady_select_server | intros server].
  apply steady_bind; [apply steady_allocate | intros found].
  apply steady_bind; [apply steady_generate_keys | intros keys].
  apply steady_bind; [apply steady_ask_settings | intros settings].
  apply steady_ret.
Qed.

End SteadyScript.

(** ** From the backup to the end *)

Section Commit.

Context {L : PyLib}.
Variable E : env.

Lemma last_char_app (s : string) (c : ascii) (t : string) :
  last_char (s +:+ String c t) = last_char (String c t).
Proof.
  induction s as [|a s IH]; [reflexivity|].
  rewrite append_cons.
  change (last_char (String a (s +:+ String c t)))
    with (match s +:+ String c t with
          | "" => Some a
          | _ => last_char (s +:+ String c t)
          end).
  destruct (s +:+ String c t) eqn:Hs; [by destruct s | by rewrite <- IH].
Qed.

(** The client's .conf file is neither the config file nor its backup. *)
Lemma conf_file_other (name : string) :
  name +:+ ".conf" ≠ opnsense_config_xml ∧ name +:+ ".conf" ≠ backup_path.
Proof.
  split; intros H; apply (f_equal last_char) in H;
    rewrite last_char_app in H; discriminate.
Qed.

Lemma backup_path_other : backup_path ≠ opnsense_config_xml.
Proof. discriminate. Qed.

(** Lines 204-253, case by case: the backup fails; the edit raises; the
    write works; the write fails and the restore works; both fail. *)
Lemma write_config_eq (p : plan) (w : world) :
  write_config E p w =
  match fs w !! opnsense_config_xml, backup_copy E with
  | Some original, Done =>
      let files := <[backup_path := original]> (fs w) in
      let events :=
        (log w ++ [Printed "Backing up xml file...";
                   Copied opnsense_config_xml backup_path true;
                   Printed ("Backup successful" +:+ nl);
                   Printed "Attempting to edit xml file..."])%list in
      match edit_config (root p) (server p) (conf p) (uuid p) (client_name p)
              (client_pubkey p) (psk p) (client_tunneladdress p) with
      | Ret edited =>
          match save_write E with
          | Done =>
              (Ret tt,
               World (<[opnsense_config_xml := tostring edited]> files) (stdin w)
                 (events ++ [Printed "Done..."; Printed "Attempting to save xml file...";
                             Wrote opnsense_config_xml true; Printed "Done!"]))
          | Failed residue =>
              match restore_copy E with
              | Done =>
                  (Ret tt,
                   World (<[opnsense_config_xml := original]>
                            (put opnsense_config_xml residue files)) (stdin w)
                     (events ++
                      [Printed "Done..."; Printed "Attempting to save xml file...";
                       Wrote opnsense_config_xml false;
                       Printed "Error writing xml file. Restoring backup, just in case...";
                       Copied backup_path opnsense_config_xml true; Printed "Done!"]))
              | Failed residue' =>
                  (Exit (-1),
                   World (put opnsense_config_xml residue'
                            (put opnsense_config_xml residue files)) (stdin w)
                     (events ++
                      [Printed "Done..."; Printed "Attempting to save xml file...";
                       Wrote opnsense_config_xml false;
                       Printed "Error writing xml file. Restoring backup, just in case...";
                       Copied backup_path opnsense_config_xml false;
                       Printed "Can't restore xml. You'll need to fix this yourself. Sorry!"]))
              end
          end
      | Exit c => (Exit c, World files (stdin w) events)
      | Raise e => (Raise e, World files (stdin w) events)
      end
  | Some _, Failed residue =>
      (Exit (-1),
       World (put backup_path residue (fs w)) (stdin w)
         (log w ++ [Printed "Backing up xml file...";
                    Copied opnsense_config_xml backup_path false;
                    Printed "Unable to backup xml file. Not proceeding!"]))
  | None, _ =>
      (Exit (-1),
       World (fs w) (stdin w)
         (log w ++ [Printed "Backing up xml file...";
                    Copied opnsense_config_xml backup_path false;
                    Printed "Unable to backup xml file. Not proceeding!"]))
  end.
Proof.
  unfold write_config, backup_config, save_config, bind, try_except, copy2,
    write_file, print, emit, lift, exit, ret. simpl.
  destruct (fs w !! opnsense_config_xml) as [original|] eqn:Hcfg; simpl.
  - destruct (backup_copy E) as [|residue]; simpl.
    + destruct (edit_config _ _ _ _ _ _ _ _) as [edited|c|e]; simpl;
        rewrite <- ?app_assoc; simpl; try reflexivity.
      destruct (save_write E) as [|residue]; simpl;
        rewrite <- ?app_assoc; simpl; try reflexivity.
      assert (Hbak : put opnsense_config_xml residue
                       (<[backup_path := original]> (fs w)) !! backup_path
                     = Some original).
      { destruct residue; simpl.
        - rewrite lookup_insert_ne by (intros H; by apply backup_path_other).
          apply lookup_insert_eq.
        - rewrite lookup_delete_ne by (intros H; by apply backup_path_other).
          apply lookup_insert_eq. }
      rewrite Hbak.
      destruct (restore_copy E); simpl; rewrite <- ?app_assoc; reflexivity.
    + rewrite <- ?app_assoc. reflexivity.
  - destruct (backup_copy E); simpl; rewrite <- ?app_assoc; reflexivity.
Qed.

End Commit.

Section Finish.

Context {L : PyLib}.
Variable E : env.

Lemma gentle_bind {A B} (m : py A) (k : A → py B) :
  gentle m → (∀ a, gentle (k a)) → gentle (bind m k).
Proof.
  intros Hm Hk w. unfold bind.
  destruct (Hm w) as (Hc & Hb & Hx & evs & Hlog & Hq).
  destruct (m w) as [[a|c|e] w1]; simpl in *;
    [|by destruct (Hx c)|by eauto 10].
  destruct (Hk a w1) as (Hc' & Hb' & Hx' & evs' & Hlog' & Hq').
  split; [congruence|]. split; [congruence|]. split; [assumption|].
  exists (evs ++ evs')%list.
  split; [by rewrite Hlog', Hlog, app_assoc | by apply Forall_app].
Qed.

Lemma gentle_emit (ev : event) : harmless ev = true → gentle (emit ev).
Proof.
  intros Hev w. simpl. repeat split; [discriminate|].
  exists [ev]. by repeat constructor.
Qed.

Lemma gentle_ret {A} (a : A) : gentle (ret a).
Proof.
  intros w. simpl. repeat split; [discriminate|].
  exists []. by rewrite app_nil_r.
Qed.

Lemma gentle_input (prompt : string) : gentle (input prompt).
Proof.
  intros w. unfold input. destruct (stdin w); simpl;
    (repeat split; [discriminate|]; exists [Printed prompt]; by repeat constructor).
Qed.

Lemma gentle_write_conf (r : io) (name content : string) :
  gentle (write_file r (name +:+ ".conf") content).
Proof.
  intros w. destruct (conf_file_other name) as [Hc Hb].
  assert (Hev : ∀ ok, harmless (Wrote (name +:+ ".conf") ok) = true).
  { intros ok. simpl. by destruct (String.eqb_spec (name +:+ ".conf") opnsense_config_xml). }
  unfold write_file. destruct r as [|[c|]]; simpl;
    rewrite ?lookup_insert_ne, ?lookup_delete_ne by assumption;
    (repeat split; [discriminate|]; eexists [_]; split; [reflexivity|];
     by repeat constructor).
Qed.

(** Lines 255-297 leave the config file and its backup alone. *)
Lemma gentle_finish (can_qr : bool) (name content : string) :
  gentle (finish E can_qr name content).
Proof.
  unfold finish, display_qr, print, run.
  repeat first
    [ apply gentle_write_conf
    | apply gentle_input
    | apply gentle_ret
    | apply gentle_emit; reflexivity
    | apply gentle_bind; [|intros]
    | match goal with |- gentle (if ?b then _ else _) => destruct b end ].
Qed.

(** A run of [main] either stops before the backup, having touched no file,
    or reaches it with the files as they were. *)
Lemma main_reaches_backup (w : world) :
  ∃ pre w1,
    fs w1 = fs w ∧ log w1 = (log w ++ pre)%list ∧ Forall quiet pre ∧
    ((snd (main E w) = w1 ∧ fails (fst (main E w))) ∨
     ∃ p, main E w = commit E p w1).
Proof.
  destruct (steady_prepare E w) as (Hfs & pre & Hlog & Hq).
  exists pre, (snd (prepare E w)). repeat split; try assumption.
  unfold main, bind. destruct (prepare E w) as [[p|c|e] w1]; simpl; eauto.
Qed.

End Finish.

Ltac all_quiet :=
  repeat (apply Forall_cons_2; [exact I|]); apply Forall_nil_2.

Section Transaction.

Context {L : PyLib}.
Variable E : env.

Lemma commit_eq (p : plan) (w : world) :
  commit E p w =
  match write_config E p w with
  | (Ret _, w') =>
      finish E (can_qr p) (client_name p)
        (client_text (privkey p) (client_tunneladdress p) (dns p)
                     (pubkey (conf p)) (psk p) (endpoint p)) w'
  | (Exit c, w') => (Exit c, w')
  | (Raise e, w') => (Raise e, w')
  end.
Proof. unfold commit, bind. by destruct (write_config E p w) as [[[]|c|e] w']. Qed.

Lemma quiet_writes_nothing (evs : list event) :
  Forall quiet evs → Forall (λ ev, writes_config ev = false) evs.
Proof. intros H. eapply Forall_impl; [exact H|]. by intros []. Qed.

Lemma quiet_no_copy (evs : list event) (src dst : string) (ok : bool) :
  Forall quiet evs → Copied src dst ok ∉ evs.
Proof. rewrite Forall_forall. intros H Hin. apply (H _ Hin). Qed.

Lemma quiet_no_write (evs : list event) (file : string) (ok : bool) :
  Forall quiet evs → Wrote file ok ∉ evs.
Proof. rewrite Forall_forall. intros H Hin. apply (H _ Hin). Qed.

Lemma harmless_no_copy (evs : list event) (src dst : string) (ok : bool) :
  Forall (λ ev, harmless ev = true) evs → Copied src dst ok ∉ evs.
Proof. rewrite Forall_forall. intros H Hin. by specialize (H _ Hin). Qed.

Lemma harmless_no_config_write (evs : list event) (ok : bool) :
  Forall (λ ev, harmless ev = true) evs → Wrote opnsense_config_xml ok ∉ evs.
Proof. rewrite Forall_forall. intros H Hin. by specialize (H _ Hin). Qed.

(** The ways lines 204-297 can go. [mid] and [post] are the events between
    the backup and the write, and after line 253. *)
Lemma commit_cases (p : plan) (w : world) :
  let r := commit E p w in
  (* the backup fails *)
  (log (snd r) = (log w ++ [Printed "Backing up xml file...";
                            Copied opnsense_config_xml backup_path false;
                            Printed "Unable to backup xml file. Not proceeding!"])%list ∧
   fst r = Exit (-1) ∧
   fs (snd r) !! opnsense_config_xml = fs w !! opnsense_config_xml) ∨
  ∃ original mid post,
    fs w !! opnsense_config_xml = Some original ∧
    fs (snd r) !! backup_path = Some original ∧
    Forall quiet mid ∧ Forall (λ ev, harmless ev = true) post ∧
    ((* the edit raises *)
     (log (snd r) = (log w ++ Printed "Backing up xml file..." ::
                       Copied opnsense_config_xml backup_path true :: mid)%list ∧
      fails (fst r) ∧
      fs (snd r) !! opnsense_config_xml = Some original) ∨
     (* the write works *)
     (log (snd r) = (log w ++ Printed "Backing up xml file..." ::
                       Copied opnsense_config_xml backup_path true :: mid ++
                       Wrote opnsense_config_xml true :: Printed "Done!" :: post)%list ∧
      save_write E = Done) ∨
     (* the write fails, the restore works *)
     (log (snd r) = (log w ++ Printed "Backing up xml file..." ::
                       Copied opnsense_config_xml backup_path true :: mid ++
                       Wrote opnsense_config_xml false ::
                       Printed "Error writing xml file. Restoring backup, just in case..." ::
                       Copied backup_path opnsense_config_xml true ::
                       Printed "Done!" :: post)%list ∧
      restore_copy E = Done ∧
      (∀ c, fst r ≠ Exit c) ∧
      fs (snd r) !! opnsense_config_xml = Some original) ∨
     (* the write fails, the restore fails *)
     (log (snd r) = (log w ++ Printed "Backing up xml file..." ::
                       Copied opnsense_config_xml backup_path true :: mid ++
                       [Wrote opnsense_config_xml false;
                        Printed "Error writing xml file. Restoring backup, just in case...";
                        Copied backup_path opnsense_config_xml false;
                        Printed "Can't restore xml. You'll need to fix this yourself. Sorry!"])%list ∧
      restore_copy E ≠ Done ∧
      fst r = Exit (-1))).
Proof.
  intros r. subst r. rewrite commit_eq, write_config_eq.
  destruct (fs w !! opnsense_config_xml) as [original|] eqn:Hcfg;
    [destruct (backup_copy E) as [|residue]|].
  2:{ left. simpl. repeat split. destruct residue; simpl.
      - rewrite lookup_insert_ne by apply backup_path_other. done.
      - rewrite lookup_delete_ne by apply backup_path_other. done. }
  2:{ left. simpl. destruct (backup_copy E); simpl; by repeat split. }
  right. exists original.
  assert (Hbak : ∀ residue,
            put opnsense_config_xml residue
              (<[backup_path := original]> (fs w)) !! backup_path = Some original).
  { intros [c|]; simpl.
    - rewrite lookup_insert_ne by (intros H; by apply backup_path_other).
      apply lookup_insert_eq.
    - rewrite lookup_delete_ne by (intros H; by apply backup_path_other).
      apply lookup_insert_eq. }
  cbv zeta.
  destruct (edit_config _ _ _ _ _ _ _ _) as [edited|c|e].
  2,3: exists [Printed ("Backup successful" +:+ nl); Printed "Attempting to edit xml file..."], [];
       simpl; rewrite lookup_insert_eq, lookup_insert_ne by apply backup_path_other;
       (split; [reflexivity|]); (split; [reflexivity|]);
       (split; [all_quiet|]); (split; [apply Forall_nil_2|]);
       left; by repeat split.
  destruct (save_write E) as [|residue] eqn:Hsave;
    [|destruct (restore_copy E) as [|residue'] eqn:Hrestore].
  - match goal with |- context [finish E ?q ?n ?c ?w'] =>
      destruct (gentle_finish E q n c w') as (Hc & Hb & Hx & post & Hlog & Hpost) end.
    exists [Printed ("Backup successful" +:+ nl); Printed "Attempting to edit xml file...";
            Printed "Done..."; Printed "Attempting to save xml file..."], post.
    rewrite Hb, Hlog. simpl.
    pose proof (Hbak (Some (tostring edited))) as Hb1. simpl in Hb1. rewrite Hb1.
    repeat split; try assumption; try all_quiet.
    right; left. split; [|reflexivity]. by rewrite <- !app_assoc.
  - match goal with |- context [finish E ?q ?n ?c ?w'] =>
      destruct (gentle_finish E q n c w') as (Hc & Hb & Hx & post & Hlog & Hpost) end.
    exists [Printed ("Backup successful" +:+ nl); Printed "Attempting to edit xml file...";
            Printed "Done..."; Printed "Attempting to save xml file..."], post.
    rewrite Hb, Hc, Hlog. simpl.
    rewrite lookup_insert_eq, lookup_insert_ne by (intros H; by apply backup_path_other).
    rewrite Hbak.
    repeat split; try assumption; try all_quiet.
    right; right; left. repeat split; try assumption. by rewrite <- !app_assoc.
  - exists [Printed ("Backup successful" +:+ nl); Printed "Attempting to edit xml file...";
            Printed "Done..."; Printed "Attempting to save xml file..."], [].
    simpl.
    assert (Hbak' : put opnsense_config_xml residue'
                      (put opnsense_config_xml residue
                         (<[backup_path := original]> (fs w))) !! backup_path
                    = Some original).
    { destruct residue'; simpl.
      - rewrite lookup_insert_ne by (intros H; by apply backup_path_other). apply Hbak.
      - rewrite lookup_delete_ne by (intros H; by apply backup_path_other). apply Hbak. }
    rewrite Hbak'.
    repeat split; try all_quiet.
    right; right; right. repeat split; [by rewrite <- !app_assoc | discriminate].
Qed.

End Transaction.

Section TransactionClaims.

Context {L : PyLib}.
Variable E : env.

(** C6: in every run of [main], the events split into a first part in which
    nothing writes the config file, and a rest that is empty or begins with
    the successful copy of the config file to the backup path, which then
    holds the original content; and when the copy to the backup path fails,
    there is no rest, the run ends by [exit(-1)] and the config file is as
    it was. *)
Theorem backup_before_write (w : world) :
  ∃ before after,
    log (snd (main E w)) = (log w ++ before ++ after)%list ∧
    Forall (λ ev, writes_config ev = false) before ∧
    (after = [] ∨
     ∃ original rest,
       after = Copied opnsense_config_xml backup_path true :: rest ∧
       fs w !! opnsense_config_xml = Some original ∧
       fs (snd (main E w)) !! backup_path = Some original) ∧
    (Copied opnsense_config_xml backup_path false ∈ (before ++ after)%list →
     after = [] ∧ fst (main E w) = Exit (-1) ∧
     fs (snd (main E w)) !! opnsense_config_xml = fs w !! opnsense_config_xml).
Proof.
  destruct (main_reaches_backup E w)
    as (pre & w1 & Hfs & Hlog & Hq & [[Hmain Hfail] | [p Hmain]]).
  - exists pre, []. rewrite Hmain, app_nil_r.
    split; [assumption|]. split; [by apply quiet_writes_nothing|].
    split; [by left|]. intros Hin. by apply quiet_no_copy in Hin.
  - rewrite Hmain.
    destruct (commit_cases E p w1)
      as [(Hl & Hr & Hc) | (original & mid & post & Hcfg & Hbak & Hmid & Hpost & Hcase)].
    + exists (pre ++ [Printed "Backing up xml file...";
                      Copied opnsense_config_xml backup_path false;
                      Printed "Unable to backup xml file. Not proceeding!"])%list, [].
      rewrite Hl, Hlog, Hc, Hfs, app_nil_r, <- app_assoc.
      split; [reflexivity|]. split; [|split; [by left | by intros _]].
      apply Forall_app. split; [by apply quiet_writes_nothing | by repeat constructor].
    + exists (pre ++ [Printed "Backing up xml file..."])%list.
      rewrite Hfs in Hcfg.
      assert (Hpre : Forall (λ ev, writes_config ev = false)
                       (pre ++ [Printed "Backing up xml file..."])).
      { apply Forall_app. split; [by apply quiet_writes_nothing | by repeat constructor]. }
      assert (Hno : ∀ rest,
                Forall (λ ev, quiet ev ∨ harmless ev = true ∨
                              ev ≠ Copied opnsense_config_xml backup_path false) rest →
                Copied opnsense_config_xml backup_path false ∈
                  ((pre ++ [Printed "Backing up xml file..."]) ++
                   Copied opnsense_config_xml backup_path true :: rest)%list →
                False).
      { intros rest Hrest Hin.
        rewrite !elem_of_app, !elem_of_cons in Hin.
        destruct Hin as [[Hin|[Hin|Hin]]|[Hin|Hin]]; try discriminate.
        - by apply quiet_no_copy in Hin.
        - by apply elem_of_nil in Hin.
        - rewrite Forall_forall in Hrest.
          destruct (Hrest _ Hin) as [[]|[?|?]]; [discriminate | done]. }
      assert (Hmidq : Forall (λ ev, quiet ev ∨ harmless ev = true ∨
                                    ev ≠ Copied opnsense_config_xml backup_path false) mid).
      { eapply Forall_impl; [exact Hmid|]. by left. }
      assert (Hpostq : Forall (λ ev, quiet ev ∨ harmless ev = true ∨
                                     ev ≠ Copied opnsense_config_xml backup_path false) post).
      { eapply Forall_impl; [exact Hpost|]. intros ev Hev. by right; left. }
      destruct Hcase as [(Hl & Hr & Hc) | [(Hl & Hs) | [(Hl & Hs & Hx & Hc) | (Hl & Hs & Hr)]]];
        eexists; rewrite Hl, Hlog;
        (split; [by rewrite <- !app_assoc|]);
        (split; [exact Hpre|]);
        (split; [right; by exists original; eexists|]);
        intros Hin; exfalso; (eapply Hno; [|exact Hin]);
        repeat first
          [ assumption
          | apply Forall_nil_2
          | apply Forall_app_2
          | apply Forall_cons_2; [right; right; discriminate|] ].
Qed.

(** C5: when the write of the document fails in a run of [main], the
    backup was made before; if the copy back works, the config file holds
    its original content again and the run does not leave by [exit]; if the
    copy back fails as well, the run ends by [exit(-1)] right after its
    own message, the one that tells the operator to repair the file. *)
Theorem write_failure_restores (w : world) (evs : list event) :
  log (snd (main E w)) = (log w ++ evs)%list →
  Wrote opnsense_config_xml false ∈ evs →
  ∃ original,
    fs w !! opnsense_config_xml = Some original ∧
    Copied opnsense_config_xml backup_path true ∈ evs ∧
    fs (snd (main E w)) !! backup_path = Some original ∧
    match restore_copy E with
    | Done =>
        Copied backup_path opnsense_config_xml true ∈ evs ∧
        fs (snd (main E w)) !! opnsense_config_xml = Some original ∧
        ∀ c, fst (main E w) ≠ Exit c
    | Failed _ =>
        Copied backup_path opnsense_config_xml false ∈ evs ∧
        fst (main E w) = Exit (-1) ∧
        last evs =
          Some (Printed "Can't restore xml. You'll need to fix this yourself. Sorry!")
    end.
Proof.
  intros Hevs Hin.
  destruct (main_reaches_backup E w)
    as (pre & w1 & Hfs & Hlog & Hq & [[Hmain Hfail] | [p Hmain]]).
  { rewrite Hmain, Hlog in Hevs. apply app_inv_head in Hevs. subst evs.
    by apply quiet_no_write in Hin. }
  rewrite Hmain in *.
  destruct (commit_cases E p w1)
    as [(Hl & Hr & Hc) | (original & mid & post & Hcfg & Hbak & Hmid & Hpost & Hcase)].
  { rewrite Hl, Hlog, <- app_assoc in Hevs. apply app_inv_head in Hevs. subst evs.
    exfalso. rewrite elem_of_app, !elem_of_cons in Hin.
    destruct Hin as [Hin|[Hin|[Hin|[Hin|Hin]]]]; try discriminate.
    - by apply quiet_no_write in Hin.
    - by apply elem_of_nil in Hin. }
  rewrite Hfs in Hcfg. exists original.
  destruct Hcase as [(Hl & Hr & Hc) | [(Hl & Hs) | [(Hl & Hs & Hx & Hc) | (Hl & Hs & Hr)]]];
    rewrite Hl, Hlog, <- app_assoc in Hevs; apply app_inv_head in Hevs; subst evs.
  - exfalso. rewrite elem_of_app, !elem_of_cons in Hin.
    destruct Hin as [Hin|[Hin|[Hin|Hin]]]; try discriminate;
      by apply quiet_no_write in Hin.
  - exfalso. rewrite elem_of_app, !elem_of_cons, elem_of_app, !elem_of_cons in Hin.
    destruct Hin as [Hin|[Hin|[Hin|[Hin|[Hin|[Hin|Hin]]]]]]; try discriminate;
      try (by apply quiet_no_write in Hin).
    by apply harmless_no_config_write in Hin.
  - rewrite Hs. split; [assumption|].
    split; [rewrite elem_of_app, !elem_of_cons; by auto|].
    split; [assumption|].
    split; [|by split].
    rewrite elem_of_app, !elem_of_cons, elem_of_app, !elem_of_cons. by auto 10.
  - destruct (restore_copy E) as [|residue]; [done|].
    split; [assumption|].
    split; [rewrite elem_of_app, !elem_of_cons; by auto|].
    split; [assumption|].
    split; [rewrite elem_of_app, !elem_of_cons, elem_of_app, !elem_of_cons; by auto 10|].
    split; [assumption|].
    rewrite !app_comm_cons, !app_assoc.
    change [Wrote opnsense_config_xml false;
            Printed "Error writing xml file. Restoring backup, just in case...";
            Copied backup_path opnsense_config_xml false;
            Printed "Can't restore xml. You'll need to fix this yourself. Sorry!"]
      with ([Wrote opnsense_config_xml false;
             Printed "Error writing xml file. Restoring backup, just in case...";
             Copied backup_path opnsense_config_xml false] ++
            [Printed "Can't restore xml. You'll need to fix this yourself. Sorry!"])%list.
    rewrite app_assoc. apply last_snoc.
Qed.

End TransactionClaims.

Section ValidationClaims.

Context {L : PyLib}.
Variable E : env.

(** C8: in a run of [main] that has read the document and selected a valid
    server record, a client that the server's peers list names and whose
    tunneladdress cannot be parsed ends the run by [exit(-1)], right after
    [print("Failed...")]: the client is not passed over. The run has
    touched no file: it is over before the backup. *)
Theorem unparseable_peer_aborts (w0 w1 w2 w3 : world) (q : bool)
    (root : Element) (srv : ET.path * Element) (c : Element)
    (pk pt ta : string) (net : IP.IPv4Network) :
  ask_packages E w0 = (Ret q, w1) →
  load_config E w1 = (Ret root, w2) →
  select_server root w2 = (Ret srv, w3) →
  ET.findtext (snd srv) "pubkey" = Some pk →
  ET.findtext (snd srv) "port" = Some pt →
  ET.findtext (snd srv) "tunneladdress" = Some ta →
  ip_network ta false = Some net →
  c ∈ peers_of root (snd srv) →
  used_client_ip c = None →
  fst (main E w0) = Exit (-1) ∧
  fs (snd (main E w0)) = fs w0 ∧
  ∃ evs, log (snd (main E w0)) = (log w0 ++ evs)%list ∧
         Forall quiet evs ∧ last evs = Some (Printed "Failed...").
Proof.
  intros H1 H2 H3 Hpk Hpt Hta Hnet Hc Hip.
  destruct (allocate_unparseable_peer E root (snd srv) c w3 pk pt ta net
              Hpk Hpt Hta Hnet Hc Hip) as (Hr & Hf & Hl).
  assert (Hmain : main E w0 = (Exit (-1), snd (allocate E root (snd srv) w3))).
  { unfold main, prepare, bind. rewrite H1, H2, H3.
    destruct (allocate E root (snd srv) w3) as [r w4]. simpl in Hr. by subst r. }
  rewrite Hmain. simpl. split; [reflexivity|].
  destruct (steady_ask_packages E w0) as (Hf1 & e1 & Hl1 & Hq1).
  destruct (steady_load_config E w1) as (Hf2 & e2 & Hl2 & Hq2).
  destruct (steady_select_server root w2) as (Hf3 & e3 & Hl3 & Hq3).
  rewrite H1 in Hf1, Hl1. rewrite H2 in Hf2, Hl2. rewrite H3 in Hf3, Hl3.
  simpl in *. split; [congruence|].
  exists (e1 ++ e2 ++ e3 ++
          [Printed "Parsing server config for instance..."; Printed "Done!";
           Printed "Parsing client config for instance..."] ++ [Printed "Failed..."])%list.
  split; [|split].
  - rewrite Hl, Hl3, Hl2, Hl1, <- !app_assoc. reflexivity.
  - repeat (apply Forall_app_2; [assumption|]). all_quiet.
  - rewrite !app_assoc. apply last_snoc.
Qed.

(** C4, where the code departs from it: a server record whose
    tunneladdress is missing or is refused by [ip_network] makes
    [parse_server_details] raise [UnboundLocalError] at [net.hosts()]; the
    fields collected in [error_message] are never printed. *)
Theorem missing_tunneladdress_raises (server : Element) (w : world) :
  (ta ← ET.findtext server "tunneladdress"; ip_network ta false) = None →
  parse_server_details server w = (Raise UnboundLocalError, w).
Proof.
  intros Hnet. unfold parse_server_details.
  destruct (ET.findtext server "tunneladdress") as [ta|]; simpl in *.
  - rewrite Hnet. reflexivity.
  - reflexivity.
Qed.

(** C10, where the code departs from it: when the server's address, taken
    from the tunneladdress by cutting off "/" and the prefix length, is
    refused by [ip_address], [parse_server_details] returns as if nothing
    had happened: no message, no error, and the whole host range of the
    network, the server's own address included when it is a host. *)
Theorem unparsed_server_ip_swallowed (server : Element) (w : world)
    (pk pt ta : string) (net : IP.IPv4Network) :
  ET.findtext server "pubkey" = Some pk →
  ET.findtext server "port" = Some pt →
  ET.findtext server "tunneladdress" = Some ta →
  ip_network ta false = Some net →
  ip_address (PyStr.replace ta ("/" +:+ pretty (IP.prefixlen net)) "") = None →
  ∃ conf, parse_server_details server w = (Ret (conf, ClientConf (IP.hosts net)), w).
Proof.
  intros Hpk Hpt Hta Hnet Ha.
  rewrite (parse_server_details_ret server w pk pt ta net) by assumption.
  unfold server_range. rewrite Ha. eauto.
Qed.

End ValidationClaims.

(** ** Updates of the tree *)

Section Tree.

Import ET.

Lemma get_at_app (e : Element) (p r : path) :
  get_at e (p ++ r) = e' ← get_at e p; get_at e' r.
Proof.
  revert e. induction p as [|i p IH]; intros e; simpl; [reflexivity|].
  destruct (children e !! i) as [c|]; simpl; [apply IH | reflexivity].
Qed.

(** Below the updated element, one sees the new element. *)
Lemma get_at_update_at_below (p r : path) (f : Element → Element) (e : Element) :
  get_at (update_at p f e) (p ++ r) = e' ← get_at e p; get_at (f e') r.
Proof.
  revert e. induction p as [|i p IH]; intros e; simpl; [reflexivity|].
  rewrite list_lookup_alter_eq.
  destruct (children e !! i) as [c|]; simpl; [apply IH | reflexivity].
Qed.

(** Beside the updated element, nothing changes. *)
Lemma get_at_update_at_beside (p q : path) (f : Element → Element) (e : Element) :
  ¬ p `prefix_of` q → ¬ q `prefix_of` p →
  get_at (update_at p f e) q = get_at e q.
Proof.
  revert q e. induction p as [|i p IH]; intros q e Hpq Hqp.
  - destruct Hpq. apply prefix_nil.
  - destruct q as [|j q]; [destruct Hqp; apply prefix_nil|]. simpl.
    destruct (decide (i = j)) as [<-|Hij].
    + rewrite list_lookup_alter_eq.
      destruct (children e !! i) as [c|]; simpl; [|reflexivity].
      apply IH; intros H; [apply Hpq | apply Hqp]; by apply prefix_cons.
    + by rewrite list_lookup_alter_ne.
Qed.

(** A path is above another, below it, or beside it. *)
Lemma path_cases (p q : path) :
  q `prefix_of` p ∨ (∃ i r, q = p ++ i :: r) ∨
  (¬ p `prefix_of` q ∧ ¬ q `prefix_of` p).
Proof.
  destruct (decide (q `prefix_of` p)) as [|Hqp]; [by left|].
  destruct (decide (p `prefix_of` q)) as [[r ->]|Hpq]; [|by right; right].
  right; left. destruct r as [|i r]; [|by eauto].
  destruct Hqp. rewrite app_nil_r. reflexivity.
Qed.

(** An update that keeps the children is not seen further down. *)
Lemma get_at_keeps_children (f : Element → Element) (e : Element) (i : nat) (r : path) :
  children (f e) = children e →
  get_at (f e) (i :: r) = get_at e (i :: r).
Proof. intros H. simpl. by rewrite H. Qed.

Lemma alter_last {A} (f : A → A) (l : list A) (x : A) :
  alter f (length (l ++ [x]) - 1) (l ++ [x]) = l ++ [f x].
Proof.
  rewrite length_app. simpl.
  replace (length l + 1 - 1) with (length l + 0) by lia.
  by rewrite alter_app_r.
Qed.


End Tree.

Section Frame.

Import ET.
Context {L : PyLib}.

Lemma children_from_lookup (keep : Element → bool) (p : path) (i : nat)
    (cs : list Element) (q : path) (c : Element) :
  (q, c) ∈ children_from keep p i cs →
  ∃ k, q = p ++ [i + k] ∧ cs !! k = Some c.
Proof.
  revert i. induction cs as [|d cs IH]; intros i Hin; simpl in Hin.
  - by apply elem_of_nil in Hin.
  - apply elem_of_app in Hin as [Hin|Hin].
    + destruct (keep d); [|by apply elem_of_nil in Hin].
      apply list_elem_of_singleton in Hin as [= -> ->].
      exists 0. by rewrite Nat.add_0_r.
    + destruct (IH _ Hin) as (k & -> & Hk). exists (S k).
      split; [f_equal; f_equal; lia | exact Hk].
Qed.

(** [findall] returns elements of the tree, each at its path. *)
Lemma findall_get_at (root : Element) (steps : list step) (p : path) (e : Element) :
  (p, e) ∈ findall root steps → get_at root p = Some e.
Proof.
  unfold findall.
  assert (H : ∀ ns, Forall (λ n, get_at root n.1 = Some n.2) ns →
                Forall (λ n, get_at root n.1 = Some n.2)
                       (foldl (λ ns s, select s ns) ns steps)).
  { induction steps as [|s steps IH]; intros ns Hns; [exact Hns|].
    simpl. apply IH. rewrite Forall_forall in *.
    assert (Hkids : ∀ keep n, n ∈ ns ≫= child_nodes keep →
                      get_at root n.1 = Some n.2).
    { intros keep [q c] Hn. apply list_elem_of_bind in Hn as ([p0 e0] & Hn & Hp).
      pose proof (Hns _ Hp) as Hp0. unfold child_nodes in Hn. simpl in Hn, Hp0.
      apply children_from_lookup in Hn as (k & -> & Hk). simpl.
      rewrite get_at_app, Hp0. simpl. by rewrite Hk. }
    destruct s; simpl; eauto.
    intros n Hn. apply list_elem_of_In, filter_In in Hn as [Hn _].
    by apply Hns, list_elem_of_In. }
  intros Hin. specialize (H [([], root)] ltac:(by repeat constructor)).
  rewrite Forall_forall in H. apply (H _ Hin).
Qed.

Lemma first_elem_of {A} (l : list A) (x : A) : first l = Ret x → x ∈ l.
Proof. destruct l; [discriminate|]. intros [= ->]. by left. Qed.


(** The peers field after the edit is the list of [conf] with the new uuid
    at its end, joined by commas. *)
Lemma edit_config_peers (root : Element) (server : path) (conf : server_conf)
    (uuid name pubkey psk tunneladdress : string) (root' : Element) :
  edit_config root server conf uuid name pubkey psk tunneladdress = Ret root' →
  ∃ i field,
    get_at root' (server ++ [i]) = Some field ∧
    tag field = "peers" ∧
    text field = Some (PyStr.join "," (peers conf ++ [uuid])).
Proof.
  unfold edit_config. intros H.
  destruct (first (findall root clients_node_path)) as [[cp container]| |];
    try discriminate.
  simpl in H.
  destruct (add_formatted_subelement _ _ _ _ _) as [node| |]; try discriminate.
  destruct (_ ≫= _) as [i|] eqn:Hi; [|discriminate]. injection H as <-.
  destruct (get_at (update_at cp (λ _, node) root) server) as [s|] eqn:Hs;
    simpl in Hi; [|discriminate].
  assert (Hf : ∃ f, children s !! i = Some f ∧ tag f = "peers").
  { clear Hs. revert i Hi. induction (children s) as [|d cs IH]; intros i Hi;
      [discriminate|]. simpl in Hi.
    destruct (String.eqb_spec (tag d) "peers") as [Hd|Hd].
    - injection Hi as <-. by exists d.
    - destruct (find_index "peers" cs) as [k|]; [|discriminate].
      injection Hi as <-. by apply IH. }
  destruct Hf as (f & Hf & Htag).
  exists i, (set_text (Some (PyStr.join "," (peers conf ++ [uuid]))) f).
  pose proof (get_at_update_at_below (server ++ [i]) []
                (set_text (Some (PyStr.join "," (peers conf ++ [uuid]))))
                (update_at cp (λ _, node) root)) as Hget.
  rewrite app_nil_r in Hget.
  rewrite (get_at_app (update_at cp (λ _, node) root) server [i]), Hs in Hget.
  simpl in Hget. rewrite Hf in Hget. simpl in Hget.
  by repeat split.
Qed.

End Frame.

(** ** The examples *)

Section Worked.

Import Examples.

(** C9: with the server at 10.0.0.1/24 and exactly one peer, at
    10.0.0.2/32, the new client gets 10.0.0.3. *)
Theorem one_peer_gets_third_address (known : list Element) (E : env)
    (root server c : Element) (w : world) (pk pt : string) :
  ET.findtext server "pubkey" = Some pk →
  ET.findtext server "port" = Some pt →
  ET.findtext server "tunneladdress" = Some "10.0.0.1/24" →
  peers_of root server = [c] →
  ET.findtext c "tunneladdress" = Some "10.0.0.2/32" →
  ∃ conf, fst (allocate (L := Concrete.lib known) E root server w) =
          Ret (conf, 1, uuid4 E, "10.0.0.3/32").
Proof.
  intros Hpk Hpt Hta Hpeers Hc.
  rewrite (allocate_outcome (L := Concrete.lib known) E root server w pk pt
             "10.0.0.1/24" net_10_0_0_0 [ip_10_0_0_2]); try assumption.
  - vm_compute. eauto.
  - reflexivity.
  - rewrite Hpeers. unfold used_client_ip. simpl. rewrite Hc. reflexivity.
Qed.

End Worked.

Section Witnesses.

Import Examples.

Lemma one_peer_gets_third_address_witness :
  ∃ conf, fst (allocate (L := lib) fine one_peer (snd (server_at one_peer)) (disk one_peer)) =
          Ret (conf, 1, "X", "10.0.0.3/32").
Proof.
  apply (one_peer_gets_third_address documents fine one_peer
           (snd (server_at one_peer))
           (default one_peer (head (peers_of one_peer (snd (server_at one_peer)))))
           (disk one_peer) "SERVERPUBKEY" "51820"); reflexivity.
Defined.




Lemma unparseable_peer_aborts_witness :
  fst (main (L := lib) fine (disk two_networks)) = Exit (-1) ∧
  fs (snd (main (L := lib) fine (disk two_networks))) = fs (disk two_networks) ∧
  ∃ evs, log (snd (main (L := lib) fine (disk two_networks))) =
           (log (disk two_networks) ++ evs)%list ∧
         Forall quiet evs ∧ last evs = Some (Printed "Failed...").
Proof.
  apply (unparseable_peer_aborts (L := lib) fine
           (disk two_networks)
           (snd (ask_packages fine (disk two_networks)))
           (snd (load_config (L := lib) fine (snd (ask_packages fine (disk two_networks)))))
           (snd (select_server (L := lib) two_networks
                   (snd (load_config (L := lib) fine
                           (snd (ask_packages fine (disk two_networks)))))))
           false two_networks (server_at two_networks)
           (default two_networks
              (head (peers_of two_networks (snd (server_at two_networks)))))
           "SERVERPUBKEY" "51820" "10.0.0.1/24" net_10_0_0_0);
    try (vm_compute; reflexivity).
  vm_compute. constructor.
Defined.

Lemma missing_tunneladdress_raises_witness :
  parse_server_details (L := lib) (snd (server_at no_tunneladdress)) (disk no_tunneladdress) =
    (Raise UnboundLocalError, disk no_tunneladdress).
Proof.
  apply (missing_tunneladdress_raises (L := lib)). reflexivity.
Defined.

Lemma unparsed_server_ip_swallowed_witness :
  ∃ conf, parse_server_details (L := lib) (snd (server_at dotted_mask)) (disk dotted_mask) =
            (Ret (conf, ClientConf (IP.hosts net_10_0_0_0)), disk dotted_mask).
Proof.
  apply (unparsed_server_ip_swallowed (L := lib) (snd (server_at dotted_mask))
           (disk dotted_mask) "SERVERPUBKEY" "51820" "10.0.0.1/255.255.255.0"
           net_10_0_0_0); reflexivity.
Defined.

(** With the mask in dotted form the server's own address stays in the
    range, and the new client is given it. *)
Example dotted_mask_collision :
  ∃ conf n,
    fst (allocate (L := lib) fine dotted_mask (snd (server_at dotted_mask))
           (disk dotted_mask)) = Ret (conf, n, "X", "10.0.0.1/32").
Proof. vm_compute. eauto. Qed.

(** A record without pubkey and without port is reported with both fields
    in one message. *)
Example no_pubkey_no_port_reported :
  parse_server_details (L := lib) (snd (server_at no_pubkey_no_port)) (disk no_pubkey_no_port) =
    (Exit (-1),
     World (fs (disk no_pubkey_no_port)) answers
       [Printed "We couldn't parse these fields:";
        Printed ("public key (pubkey)" +:+ nl +:+ "port")]).
Proof.
  rewrite (parse_server_details_reports (L := lib) _ _ "10.0.0.1/24" net_10_0_0_0);
    [reflexivity | reflexivity | reflexivity | by left].
Qed.

End Witnesses.

Section TransactionWitnesses.

Import Examples.

Lemma write_failure_restores_witness :
  ∃ original,
    fs (disk one_peer) !! opnsense_config_xml = Some original ∧
    Copied opnsense_config_xml backup_path true
      ∈ log (snd (main (L := lib) write_fails (disk one_peer))) ∧
    fs (snd (main (L := lib) write_fails (disk one_peer))) !! backup_path = Some original ∧
    Copied backup_path opnsense_config_xml true
      ∈ log (snd (main (L := lib) write_fails (disk one_peer))) ∧
    fs (snd (main (L := lib) write_fails (disk one_peer))) !! opnsense_config_xml
      = Some original ∧
    ∀ c, fst (main (L := lib) write_fails (disk one_peer)) ≠ Exit c.
Proof.
  apply (write_failure_restores (L := lib) write_fails (disk one_peer)
           (log (snd (main (L := lib) write_fails (disk one_peer))))).
  - reflexivity.
  - apply (bool_decide_unpack _). vm_compute. exact I.
Defined.

Lemma backup_before_write_witness :
  fst (main (L := lib) backup_fails (disk one_peer)) = Exit (-1) ∧
  fs (snd (main (L := lib) backup_fails (disk one_peer))) !! opnsense_config_xml =
    fs (disk one_peer) !! opnsense_config_xml.
Proof.
  destruct (backup_before_write (L := lib) backup_fails (disk one_peer))
    as (before & after & Hlog & _ & _ & Hfail).
  apply Hfail. simpl in Hlog. rewrite <- Hlog.
  apply (bool_decide_unpack _). vm_compute. exact I.
Defined.



(** On the document indented by two spaces, the one existing client was the
    last child of the clients container: its tail is moved from the level
    of the container's end tag to the level of the new element. *)
Example one_peer_last_sibling_relevelled :
  tail <$> ET.get_at one_peer [0; 0; 1; 0; 0] = Some (pad 8) ∧
  match
    edit_config one_peer (fst (server_at one_peer))
      (ServerConf ["A"] (Some "SERVERPUBKEY") "10.0.0.1" 24 (Some "51820"))
      "X" "client1" "PUBLICKEY" "SHAREDKEY" "10.0.0.3/32"
  with
  | Ret edited => tail <$> ET.get_at edited [0; 0; 1; 0; 0] = Some (pad 10)
  | _ => False
  end.
Proof. split; vm_compute; reflexivity. Qed.

End TransactionWitnesses.

(** * Further properties *)

(** ** The range and the allocation, without conditions on the peers *)

Section Range.

Context {L : PyLib}.
Variable E : env.





End Range.

(** ** The edit of the tree *)

Section Edit.

Import ET.

(** [edit_config] returns or raises: it has no [exit]. *)
Lemma edit_config_no_exit (root : Element) (server : path) (conf : server_conf)
    (uuid name pubkey psk tunneladdress : string) (c : Z) :
  edit_config root server conf uuid name pubkey psk tunneladdress ≠ Exit c.
Proof.
  unfold edit_config.
  destruct (findall root clients_node_path) as [|[cp container] rest]; [discriminate|].
  simpl. unfold add_formatted_subelement. simpl.
  destruct (tail container); [|discriminate].
  destruct (_ ≫= _); discriminate.
Qed.

Lemma alter_last_map {A} (f g : A → A) (l : list A) (x : A) :
  alter f (length (l ++ map g [x]) - 1) (l ++ map g [x]) = l ++ [f (g x)].
Proof. apply (alter_last f l (g x)). Qed.

(** Setting the text of an element is not seen from the elements that are
    not above it. *)
Lemma get_at_set_text_elsewhere (field q : path) (v : option string) (r0 : Element) :
  ¬ q `prefix_of` field →
  get_at (update_at field (set_text v) r0) q = get_at r0 q.
Proof.
  intros Hq.
  destruct (path_cases field q) as [?|[(k & r & ->)|[? ?]]]; [done| |].
  - rewrite get_at_update_at_below, (get_at_app r0 field (k :: r)).
    destruct (get_at r0 field); reflexivity.
  - by apply get_at_update_at_beside.
Qed.

(** X3: after a successful edit, the peers element of the server record
    holds the new uuid alone when the field read by [parse_server_details]
    was empty, and otherwise that field, a comma and the new uuid. *)
Theorem peers_element_after_edit (root : Element) (server : path) (conf : server_conf)
    (existing uuid name pubkey psk tunneladdress : string) (root' : Element) :
  peers conf = parse_peers (Some existing) →
  edit_config root server conf uuid name pubkey psk tunneladdress = Ret root' →
  ∃ i field,
    get_at root' (server ++ [i]) = Some field ∧
    tag field = "peers" ∧
    text field = Some (if String.eqb existing "" then uuid
                       else existing +:+ "," +:+ uuid).
Proof.
  intros Hpeers Hedit.
  destruct (edit_config_peers _ _ _ _ _ _ _ _ _ Hedit) as (i & field & Hget & Htag & Htext).
  exists i, field. split; [assumption|]. split; [assumption|].
  rewrite Htext, Hpeers, join_snoc. f_equal.
  destruct (parse_peers (Some existing)) as [|a l] eqn:Hp.
  - apply parse_peers_nil in Hp. by subst.
  - rewrite <- Hp, join_parse_peers.
    destruct (String.eqb_spec existing "") as [->|]; [discriminate | reflexivity].
Qed.

(** X4: after a successful edit, when the server record is not inside the
    clients container, the last child of the clients container is the new
    client: the uuid as its only attribute, the eight fields in the order
    of the script with [serveraddress] empty, each on a line of its own
    two levels below the container's end tag, and the end tag of the new
    element on the level of the container's end tag plus one. *)
Theorem new_client_element (root : Element) (server : path) (conf : server_conf)
    (uuid name pubkey psk tunneladdress : string) (root' : Element)
    (clients : path) (container : Element) (rest : list (path * Element)) :
  findall root clients_node_path = (clients, container) :: rest →
  ¬ clients `prefix_of` server →
  edit_config root server conf uuid name pubkey psk tunneladdress = Ret root' →
  ∃ rt,
    tail container = Some rt ∧
    let level := PyStr.count rt "  " + 1 in
    let inner := Some (nl +:+ PyStr.repeat "  " (level + 2)) in
    let field k v := Elem k [] v inner [] in
    get_at root' (clients ++ [length (children container)]) =
      Some (Elem "client" [("uuid", uuid)] inner
              (Some (nl +:+ PyStr.repeat "  " level))
              [field "enabled" (Some "0");
               field "name" (Some name);
               field "pubkey" (Some pubkey);
               field "psk" (Some psk);
               field "tunneladdress" (Some tunneladdress);
               field "serveraddress" None;
               field "serverport" (port conf);
               Elem "keepalive" [] (Some "25")
                 (Some (nl +:+ PyStr.repeat "  " (level + 1))) []]).
Proof.
  intros Hfind Hout. unfold edit_config. rewrite Hfind. simpl.
  assert (Hcont : get_at root clients = Some container).
  { apply (findall_get_at root clients_node_path). rewrite Hfind. by left. }
  unfold add_formatted_subelement. simpl.
  destruct (tail container) as [rt|] eqn:Hrt; [|discriminate].
  destruct (_ ≫= _) as [i|]; [|discriminate]. intros [= <-].
  exists rt. split; [reflexivity|]. cbv zeta.
  rewrite get_at_set_text_elsewhere.
  - rewrite get_at_update_at_below, Hcont.
    cbn -[PyStr.count PyStr.repeat alter map length app lookup].
    rewrite map_app, alter_last_map.
    rewrite lookup_app_r by (rewrite length_map; lia).
    rewrite length_map, Nat.sub_diag. reflexivity.
  - intros [k Hk]. apply Hout. destruct (decide (k = [])) as [->|Hne].
    + rewrite app_nil_r in Hk. by apply app_inj_tail in Hk as [-> _].
    + destruct (exists_last Hne) as (k' & j & ->).
      rewrite app_assoc in Hk. apply app_inj_tail in Hk as [-> _].
      rewrite <- app_assoc. by apply prefix_app_r.
Qed.

End Edit.

(** ** Runs of [main] from the backup on *)

Section Runs.

Context {L : PyLib}.
Variable E : env.

Lemma main_after_prepare (w w1 : world) (p : plan) :
  prepare E w = (Ret p, w1) →
  main E w = commit E p w1 ∧ fs w1 = fs w.
Proof.
  intros Hp. split.
  - unfold main, bind. by rewrite Hp.
  - destruct (steady_prepare E w) as [Hfs _]. by rewrite Hp in Hfs.
Qed.

(** X5: when the backup, the edit and the write all work, the config file
    holds the written form of the edited tree and the backup file holds the
    original content, whatever happens afterwards to the client's .conf
    file, the restart and the QR code; the run does not leave by [exit]. *)
Theorem committed_document (w w1 : world) (p : plan) (original : string)
    (edited : Element) :
  prepare E w = (Ret p, w1) →
  fs w !! opnsense_config_xml = Some original →
  backup_copy E = Done →
  save_write E = Done →
  edit_config (root p) (server p) (conf p) (uuid p) (client_name p)
    (client_pubkey p) (psk p) (client_tunneladdress p) = Ret edited →
  fs (snd (main E w)) !! opnsense_config_xml = Some (tostring edited) ∧
  fs (snd (main E w)) !! backup_path = Some original ∧
  ∀ c, fst (main E w) ≠ Exit c.
Proof.
  intros Hp Hcfg Hbackup Hsave Hedit.
  destruct (main_after_prepare w w1 p Hp) as [-> Hfs].
  rewrite commit_eq, write_config_eq, Hfs, Hcfg, Hbackup, Hedit, Hsave.
  cbv beta iota zeta.
  match goal with |- context [finish E ?q ?n ?c ?w'] =>
    destruct (gentle_finish E q n c w') as (Hc & Hb & Hx & _) end.
  rewrite Hc, Hb. simpl.
  rewrite lookup_insert_eq, lookup_insert_ne by apply not_eq_sym, backup_path_other.
  by rewrite lookup_insert_eq.
Qed.

(** X6: when the document has no clients node, or its clients node is not
    followed by any text (no line break before the next tag), the run stops
    at the edit, after the backup was made, by an uncaught [IndexError] or
    [AttributeError]: the config file keeps its content, and the backup
    file holds the same. *)
Theorem unformatted_container_stops_run (w w1 : world) (p : plan)
    (original : string) (e : exn) :
  prepare E w = (Ret p, w1) →
  fs w !! opnsense_config_xml = Some original →
  backup_copy E = Done →
  (ET.findall (root p) clients_node_path = [] ∧ e = IndexError) ∨
  (∃ clients container rest,
     ET.findall (root p) clients_node_path = (clients, container) :: rest ∧
     tail container = None ∧ e = AttributeError) →
  fst (main E w) = Raise e ∧
  fs (snd (main E w)) !! opnsense_config_xml = Some original ∧
  fs (snd (main E w)) !! backup_path = Some original.
Proof.
  intros Hp Hcfg Hbackup Hdoc.
  destruct (main_after_prepare w w1 p Hp) as [-> Hfs].
  assert (Hedit : edit_config (root p) (server p) (conf p) (uuid p) (client_name p)
                    (client_pubkey p) (psk p) (client_tunneladdress p) = Raise e).
  { unfold edit_config.
    destruct Hdoc as [[-> ->] | (clients & container & rest & -> & Htail & ->)];
      [reflexivity|].
    simpl. unfold add_formatted_subelement. simpl. by rewrite Htail. }
  rewrite commit_eq, write_config_eq, Hfs, Hcfg, Hbackup, Hedit. simpl.
  by rewrite lookup_insert_eq, lookup_insert_ne by apply backup_path_other.
Qed.

(** X25: when the write of the document fails and the copy of the backup
    over it fails as well, the run ends by [exit(-1)]: the backup file
    holds the original content, the config file holds what the failed copy
    left of it, and nothing further is done: no command is run after the
    ones that ran before the backup. *)
Theorem failed_restore_aborts (w w1 : world) (p : plan) (original : string)
    (edited : Element) (residue residue' : option string) :
  prepare E w = (Ret p, w1) →
  fs w !! opnsense_config_xml = Some original →
  backup_copy E = Done →
  edit_config (root p) (server p) (conf p) (uuid p) (client_name p)
    (client_pubkey p) (psk p) (client_tunneladdress p) = Ret edited →
  save_write E = Failed residue →
  restore_copy E = Failed residue' →
  fst (main E w) = Exit (-1) ∧
  fs (snd (main E w)) !! backup_path = Some original ∧
  fs (snd (main E w)) !! opnsense_config_xml = residue' ∧
  (∀ cmd, Ran cmd ∈ log (snd (main E w)) → Ran cmd ∈ log w1) ∧
  last (log (snd (main E w))) =
    Some (Printed "Can't restore xml. You'll need to fix this yourself. Sorry!").
Proof.
  intros Hp Hcfg Hbackup Hedit Hsave Hrestore.
  destruct (main_after_prepare w w1 p Hp) as [-> Hfs].
  rewrite commit_eq, write_config_eq, Hfs, Hcfg, Hbackup, Hedit, Hsave, Hrestore.
  cbv beta iota zeta. cbn [fst snd fs log].
  assert (Hother : opnsense_config_xml ≠ backup_path)
    by (apply not_eq_sym, backup_path_other).
  split; [done|]. split; [|split; [|split]].
  - destruct residue, residue'; cbn [put];
      repeat first [rewrite lookup_insert_ne by exact Hother
                   |rewrite lookup_delete_ne by exact Hother];
      apply lookup_insert_eq.
  - destruct residue'; cbn [put]; [apply lookup_insert_eq | apply lookup_delete_eq].
  - intros cmd. rewrite !elem_of_app, !elem_of_cons, elem_of_nil.
    intros [[?|Hin]|Hin]; [assumption| |]; repeat destruct Hin as [Hin|Hin];
      done.
  - match goal with
    | |- last (?l ++ [?a; ?b; ?c; ?d; ?e; ?f]) = _ =>
        change (l ++ [a; b; c; d; e; f]) with (l ++ ([a; b; c; d; e] ++ [f]))
    end.
    rewrite app_assoc. apply last_snoc.
Qed.

(** X7: a run that ends by [exit(0)] - the operator quit - has touched no
    file and has copied or written nothing. *)
Theorem quit_leaves_no_trace (w : world) :
  fst (main E w) = Exit 0 →
  fs (snd (main E w)) = fs w ∧
  ∃ evs, log (snd (main E w)) = (log w ++ evs)%list ∧ Forall quiet evs.
Proof.
  intros Hexit.
  destruct (steady_prepare E w) as (Hfs & evs & Hlog & Hq).
  assert (Hmain : snd (main E w) = snd (prepare E w)).
  { unfold main, bind in *.
    destruct (prepare E w) as [[p|c|x] w1]; simpl in *; try reflexivity.
    exfalso. revert Hexit. rewrite commit_eq, write_config_eq.
    destruct (fs w1 !! opnsense_config_xml); [destruct (backup_copy E)|];
      try discriminate. cbv zeta.
    destruct (edit_config _ _ _ _ _ _ _ _) as [edited|c|x] eqn:Hedit;
      [| by destruct (edit_config_no_exit _ _ _ _ _ _ _ _ _ Hedit) | discriminate].
    destruct (save_write E); [|destruct (restore_copy E); [|discriminate]];
      cbv beta iota zeta;
      match goal with |- context [finish E ?q ?n ?c ?w'] =>
        destruct (gentle_finish E q n c w') as (_ & _ & Hx & _) end;
      apply Hx. }
  rewrite Hmain. eauto.
Qed.

End Runs.

(** ** The steps before the document is read, and the keys *)

Ltac all_printed :=
  repeat (apply Forall_cons_2; [by eexists|]); apply Forall_nil_2.

Section Early.

Context {L : PyLib}.
Variable E : env.

(** X8: [install_packages] reports whether both packages are there or could
    be added; it asks for libqrencode only when png is there or was added,
    and it adds png exactly when [pkg info] did not find it. *)
Theorem packages_installed_in_order (w : world) :
  ∃ evs,
    install_packages E w =
      (Ret ((pkg_info E "png" || pkg_add E PNG_PKG) &&
            (pkg_info E "libqrencode" || pkg_add E QR_PKG)),
       World (fs w) (stdin w) (log w ++ evs)) ∧
    (Ran "pkg info libqrencode" ∈ evs ↔ pkg_info E "png" || pkg_add E PNG_PKG = true) ∧
    (Ran ("pkg add " +:+ PNG_PKG) ∈ evs ↔ pkg_info E "png" = false).
Proof.
  unfold install_packages, check_package, bind, print, run, emit, ret. simpl.
  destruct (pkg_info E "png") eqn:H1; [|destruct (pkg_add E PNG_PKG) eqn:H2]; simpl;
    try (destruct (pkg_info E "libqrencode") eqn:H3;
         [|destruct (pkg_add E QR_PKG) eqn:H4]); simpl;
    rewrite <- ?app_assoc; simpl;
    (eexists; split; [reflexivity|]);
    apply (bool_decide_unpack _); vm_compute; exact I.
Qed.

(** X9: the answer to the package question is read without regard to
    case: y runs [install_packages], q ends the run by [exit(0)] after the
    quit message, and any other answer goes on without QR support; up to
    that point the run has only printed. *)
Theorem package_question (w : world) (answer : string) (rest : list string) :
  stdin w = answer :: rest →
  ∃ prompts,
    Forall (λ ev, ∃ s, ev = Printed s) prompts ∧
    let asked := World (fs w) rest (log w ++ prompts) in
    (PyStr.lower answer = "y" → ask_packages E w = install_packages E asked) ∧
    (PyStr.lower answer = "q" →
     ask_packages E w =
       (Exit 0, World (fs w) rest
                  (log w ++ prompts ++
                   [Printed "User has quit without making changes."]))) ∧
    (PyStr.lower answer ≠ "y" → PyStr.lower answer ≠ "q" →
     ask_packages E w = (Ret false, asked)).
Proof.
  intros Hin.
  exists [Printed "OPNsense wireguard config script";
          Printed ("---------------------------------------------------------------------" +:+ nl +:+ nl);
          Printed "First off, in order to display a qrcode at the end of the process, ";
          Printed "we'll need some unsupported packages that I have not vetted fully.";
          Printed "They've worked fine for me since OPNsense 21.7.x-amd64. Should I install";
          Printed ("these libraries? You can't blame me if this breaks your appliance." +:+ nl);
          Printed "(y) Attempt to install packages";
          Printed "(n) Skip packages, handle the config yourself";
          Printed "(q) Quit the program without doing anything";
          Printed "(y/n/q): "].
  split; [all_printed|].
  assert (ask_packages E w =
          match parse_actions answer [("y", install_packages E); ("q", user_quit)] None with
          | Some action => action
          | None => ret false
          end (World (fs w) rest
                 (log w ++
                  [Printed "OPNsense wireguard config script";
                   Printed ("---------------------------------------------------------------------" +:+ nl +:+ nl);
                   Printed "First off, in order to display a qrcode at the end of the process, ";
                   Printed "we'll need some unsupported packages that I have not vetted fully.";
                   Printed "They've worked fine for me since OPNsense 21.7.x-amd64. Should I install";
                   Printed ("these libraries? You can't blame me if this breaks your appliance." +:+ nl);
                   Printed "(y) Attempt to install packages";
                   Printed "(n) Skip packages, handle the config yourself";
                   Printed "(q) Quit the program without doing anything";
                   Printed "(y/n/q): "]))) as ->.
  { unfold ask_packages, package_prompt, bind, print, emit, input.
    cbn [fs stdin log]. rewrite Hin. rewrite <- !app_assoc. reflexivity. }
  unfold parse_actions. cbn [List.find fst snd].
  split; [|split].
  - intros ->. reflexivity.
  - intros ->. cbn. unfold user_quit, bind, print, emit, exit. cbn [fs stdin log].
    rewrite <- !app_assoc. reflexivity.
  - intros Hy Hq.
    destruct (String.eqb_spec "y" (PyStr.lower answer)) as [Heq|_]; [by destruct Hy|].
    destruct (String.eqb_spec "q" (PyStr.lower answer)) as [Heq|_]; [by destruct Hq|].
    reflexivity.
Qed.

(** X10: when the bytes of the config file are refused by the parser, the
    run ends by an uncaught [NameError] right after the announcement of the
    parse, and no file has been touched. *)
Theorem parse_error_is_name_error (w w1 : world) (q : bool) (bytes : string) :
  ask_packages E w = (Ret q, w1) →
  fs w !! opnsense_config_xml = Some bytes →
  read_config E = true →
  fromstring bytes = None →
  fst (main E w) = Raise NameError ∧
  fs (snd (main E w)) = fs w ∧
  last (log (snd (main E w))) = Some (Printed "Attempting to parse the config...").
Proof.
  intros Hask Hfile Hread Hparse.
  destruct (steady_ask_packages E w) as (Hfs & _). rewrite Hask in Hfs. simpl in Hfs.
  unfold main, prepare, bind. rewrite Hask.
  unfold load_config, bind, print, emit, ret, raise. simpl.
  rewrite Hfs, Hfile, Hread. simpl. rewrite Hparse. simpl.
  split; [reflexivity|]. split; [done | apply last_snoc].
Qed.

(** X11: when there is no config file, or it cannot be read, the run ends
    by [exit(-1)] right after the message that says which, and no file has
    been touched. *)
Theorem unreadable_config_aborts (w w1 : world) (q : bool) :
  ask_packages E w = (Ret q, w1) →
  fs w !! opnsense_config_xml = None ∨ read_config E = false →
  fst (main E w) = Exit (-1) ∧
  fs (snd (main E w)) = fs w ∧
  last (log (snd (main E w))) =
    Some (Printed (match fs w !! opnsense_config_xml with
                   | Some _ => "Failed. Unknown issue with config file."
                   | None => "Failed. Can't find the file?"
                   end)).
Proof.
  intros Hask Hcase.
  destruct (steady_ask_packages E w) as (Hfs & _). rewrite Hask in Hfs. simpl in Hfs.
  unfold main, prepare, bind. rewrite Hask.
  unfold load_config, bind, print, emit, ret, exit. simpl. rewrite Hfs.
  destruct (fs w !! opnsense_config_xml) as [bytes|]; simpl.
  - destruct Hcase as [|Hread]; [discriminate|]. rewrite Hread. simpl.
    split; [reflexivity|]. split; [done | apply last_snoc].
  - split; [reflexivity|]. split; [done | apply last_snoc].
Qed.

(** [rstrip("\n")] cuts newlines at the end and nothing else, and leaves
    none at the end. *)
Lemma rstrip_nl_cut (s : string) :
  ∃ n, s = rstrip_nl s +:+ PyStr.repeat nl n.
Proof.
  induction s as [|c s [n IH]]; [by exists 0|]. simpl.
  destruct (Ascii.eqb_spec c (ascii_of_nat 10)) as [->|Hc]; simpl.
  - destruct (String.eqb_spec (rstrip_nl s) "") as [Hr|Hr].
    + exists (S n). rewrite Hr in IH. simpl in *. rewrite append_nil in *.
      by rewrite IH at 1.
    + exists n. rewrite append_cons. by rewrite <- IH.
  - exists n. rewrite append_cons. by rewrite <- IH.
Qed.

Lemma rstrip_nl_end (s : string) :
  last_char (rstrip_nl s) ≠ Some (ascii_of_nat 10).
Proof.
  induction s as [|c s IH]; [discriminate|]. simpl.
  destruct (Ascii.eqb_spec c (ascii_of_nat 10)) as [->|Hc];
    destruct (String.eqb_spec (rstrip_nl s) "") as [Hr|Hr]; simpl;
    rewrite ?Hr; try discriminate; try (intros [= ?]; done);
    destruct (rstrip_nl s); done.
Qed.

(** X12: [generate_keys] returns exactly when the three [wg] commands
    work, the public key being asked for the private key without its line
    end; the three keys are the outputs without their trailing newlines.
    When a command fails the run ends by [exit(-1)] after "failed!". *)
Theorem keys_or_abort (w : world) :
  match wg_genkey E with
  | Some k =>
      match wg_pubkey E (rstrip_nl k), wg_genpsk E with
      | Some p, Some s =>
          fst (generate_keys E w) = Ret (rstrip_nl k, rstrip_nl p, rstrip_nl s) ∧
          (∃ a b c, k = rstrip_nl k +:+ PyStr.repeat nl a ∧
                    p = rstrip_nl p +:+ PyStr.repeat nl b ∧
                    s = rstrip_nl s +:+ PyStr.repeat nl c) ∧
          last_char (rstrip_nl k) ≠ Some (ascii_of_nat 10) ∧
          last_char (rstrip_nl p) ≠ Some (ascii_of_nat 10) ∧
          last_char (rstrip_nl s) ≠ Some (ascii_of_nat 10)
      | _, _ =>
          fst (generate_keys E w) = Exit (-1) ∧
          last (log (snd (generate_keys E w))) = Some (Printed "failed!")
      end
  | None =>
      fst (generate_keys E w) = Exit (-1) ∧
      last (log (snd (generate_keys E w))) = Some (Printed "failed!") ∧
      ∀ cmd, Ran cmd ∈ log (snd (generate_keys E w)) →
             Ran cmd ∈ log w ∨ cmd = "wg genkey"
  end.
Proof.
  unfold generate_keys, bind, try_except, check_output, run, print, emit, ret,
    raise, exit. simpl.
  destruct (wg_genkey E) as [k|]; simpl.
  - destruct (wg_pubkey E (rstrip_nl k)) as [p|]; simpl;
      [destruct (wg_genpsk E) as [s|]; simpl|].
    + split; [reflexivity|]. split; [|by auto using rstrip_nl_end].
      destruct (rstrip_nl_cut k) as [a Ha], (rstrip_nl_cut p) as [b Hb],
        (rstrip_nl_cut s) as [c Hc]. by exists a, b, c.
    + split; [reflexivity | apply last_snoc].
    + split; [reflexivity | apply last_snoc].
  - split; [reflexivity|]. split; [apply last_snoc|].
    intros cmd. rewrite !elem_of_app, !list_elem_of_singleton.
    intros [[[?|?]|[= ->]]|?]; auto; discriminate.
Qed.

(** X13: the three questions are asked in the order endpoint, dns, client
    name, a blank answer taking the default (the client name defaulting to
    "client" and the number of peers); only an answer that is y or Y to the
    last question lets the run go on, any other ends it by [exit(0)]. *)
Theorem settings_asked (n : nat) (w : world) (e d c y : string) (rest : list string) :
  stdin w = e :: d :: c :: y :: rest →
  fst (ask_settings n w) =
    (if String.eqb (PyStr.lower y) "y"
     then Ret (PyStr.or_default e default_endpoint,
               PyStr.or_default d default_dns,
               PyStr.or_default c ("client" +:+ pretty n))
     else Exit 0) ∧
  stdin (snd (ask_settings n w)) = rest ∧
  fs (snd (ask_settings n w)) = fs w.
Proof.
  intros Hin. unfold ask_settings, ask, user_prompts, default_client, user_quit,
    bind, print, emit, input, ret, exit. simpl. rewrite Hin. simpl.
  destruct (String.eqb (PyStr.lower y) "y"); simpl; by repeat split.
Qed.

End Early.

(** ** The choice of the server *)

Section Choice.

Context {L : PyLib}.

Import ET.

(** The listing of the servers prints one line for each and reads
    nothing. *)
Lemma list_servers_ok (servers : list Element) (w : world) :
  Forall (λ s, is_Some (find s "name") ∧ is_Some (find s "instance")) servers →
  ∃ evs, Forall (λ ev, ∃ s, ev = Printed s) evs ∧
         list_servers servers w = (Ret tt, World (fs w) (stdin w) (log w ++ evs)).
Proof.
  intros Hall. revert w. induction Hall as [|s servers [[n Hn] [i Hi]] _ IH]; intros w.
  - exists []. split; [constructor|]. destruct w. simpl. by rewrite app_nil_r.
  - simpl. rewrite Hn, Hi. unfold bind, print, emit.
    destruct (IH (World (fs w) (stdin w)
                    (log w ++ [Printed (PyStr.fmt (text n) +:+ ": " +:+ PyStr.fmt (text i))])))
      as (evs & Hevs & ->).
    eexists (_ :: evs). split; [constructor; eauto|].
    simpl. by rewrite <- app_assoc.
Qed.

Lemma list_servers_broken (servers : list Element) (w : world) :
  Exists (λ s, find s "name" = None ∨ find s "instance" = None) servers →
  ∃ evs, Forall (λ ev, ∃ s, ev = Printed s) evs ∧
         list_servers servers w =
           (Raise AttributeError, World (fs w) (stdin w) (log w ++ evs)).
Proof.
  revert w. induction servers as [|s servers IH]; intros w Hex; [by inversion Hex|].
  simpl.
  destruct (find s "name") as [n|] eqn:Hn, (find s "instance") as [i|] eqn:Hi;
    try (exists []; split; [constructor|]; destruct w; simpl; by rewrite app_nil_r).
  apply Exists_cons in Hex as [[?|?]|Hrest]; try congruence.
  unfold bind, print, emit.
  destruct (IH (World (fs w) (stdin w)
                  (log w ++ [Printed (PyStr.fmt (text n) +:+ ": " +:+ PyStr.fmt (text i))]))
               Hrest)
    as (evs & Hevs & ->).
  eexists (_ :: evs). split; [constructor; eauto|].
  simpl. by rewrite <- app_assoc.
Qed.

(** The predicate of the second expression filters the servers of the
    first. *)
Lemma findall_server_path (root : Element) (this_instance : string) :
  findall root (server_path this_instance) =
    List.filter (λ n, has_child_text "instance" this_instance n.2)
                (findall root servers_path).
Proof. reflexivity. Qed.

Lemma or_default_instance (answer : string) :
  String.eqb (PyStr.or_default answer default_instance) "" = false.
Proof. by destruct answer. Qed.

(** [select_server] once the servers are listed and the answer is read. *)
Lemma select_server_eq (root : Element) (w : world) (answer : string)
    (rest : list string) :
  findall root servers_path ≠ [] →
  Forall (λ n, is_Some (find n.2 "name") ∧ is_Some (find n.2 "instance"))
         (findall root servers_path) →
  stdin w = answer :: rest →
  ∃ evs, Forall (λ ev, ∃ s, ev = Printed s) evs ∧
    select_server root w =
      let chosen := PyStr.or_default answer default_instance in
      let w1 := World (fs w) rest (log w ++ evs) in
      if negb (String.eqb (PyStr.lower chosen) (PyStr.upper chosen))
      then (Exit 0, World (fs w) rest
                      (log w ++ evs ++ [Printed "User has quit without making changes."]))
      else match int chosen with
           | None => (Raise ValueError, w1)
           | Some n =>
               if (Z.of_nat (length (findall root servers_path)) <? n)%Z
               then (Exit 0, World (fs w) rest
                               (log w ++ evs ++
                                [Printed "User has quit without making changes."]))
               else
                 match findall root (server_path chosen) with
                 | [] =>
                     (Raise IndexError,
                      World (fs w) rest
                        (log w ++ evs ++
                         [Printed ("You selected " +:+ chosen +:+
                                   ". Let me load that server...")]))
                 | server :: _ =>
                     (Ret server,
                      World (fs w) rest
                        (log w ++ evs ++
                         [Printed ("You selected " +:+ chosen +:+
                                   ". Let me load that server...");
                          Printed "Got it!"]))
                 end
           end.
Proof.
  intros Hne Hall Hin.
  assert (Hall' : Forall (λ s, is_Some (find s "name") ∧ is_Some (find s "instance"))
                         (map snd (findall root servers_path))).
  { apply Forall_fmap. exact Hall. }
  destruct (list_servers_ok _
              (World (fs w) (stdin w)
                 (log w ++ [Printed "Getting wireguard instances..."] ++
                  [Printed ("Found " +:+ pretty (length (findall root servers_path)) +:+ ":")]))
              Hall')
    as (listing & Hlisting & Hlist).
  exists ([Printed "Getting wireguard instances...";
           Printed ("Found " +:+ pretty (length (findall root servers_path)) +:+ ":")] ++
          listing ++
          [Printed (nl +:+ "Which instance number do you want to add a client to?");
           Printed ("0 to " +:+ pretty (length (findall root servers_path)) +:+
                    ", (blank defaults to (" +:+ default_instance +:+ ")): ")]).
  split.
  { repeat (apply Forall_cons_2; [by eexists|]).
    apply Forall_app. split; [exact Hlisting|]. all_printed. }
  unfold select_server, user_prompts.
  unfold bind at 1. unfold print at 1, emit at 1.
  unfold bind at 1.
  destruct (length (findall root servers_path)) as [|k] eqn:Hlen.
  { destruct (findall root servers_path); [by destruct Hne | discriminate]. }
  cbn [Nat.eqb]. unfold ret at 1.
  unfold bind at 1. unfold print at 1, emit at 1. cbn [fs stdin log].
  unfold bind at 1. rewrite <- app_assoc. rewrite Hlist.
  unfold bind at 1. unfold bind at 1. unfold bind at 1.
  unfold print at 1, emit at 1. cbn [fs stdin log].
  unfold bind at 1. unfold input at 1. cbn [fs stdin log]. rewrite Hin.
  unfold ret at 1.
  unfold bind at 1. unfold bind at 1.
  rewrite or_default_instance.
  set (chosen := PyStr.or_default answer default_instance).
  cbv zeta.
  destruct (String.eqb (PyStr.lower chosen) (PyStr.upper chosen)); cbn [negb];
    [destruct (int chosen) as [n|];
       [destruct (Z.of_nat (S k) <? n)%Z;
          [|destruct (findall root (server_path chosen)) as [|server others] eqn:Hfound]|]|];
    unfold user_quit, bind, print, emit, exit, ret, raise, lift, first;
    cbn [fs stdin log]; rewrite ?Hfound;
    unfold bind, print, emit, ret; cbn [fs stdin log];
    f_equal; f_equal; rewrite <- !app_assoc; reflexivity.
Qed.

(** [select_server] when the listing cannot be made. *)
Lemma select_server_no_listing (root : Element) (w : world) :
  (findall root servers_path = [] →
   select_server root w =
     (Exit (-1), World (fs w) (stdin w)
                   (log w ++ [Printed "Getting wireguard instances...";
                              Printed "Could not find any server instances."]))) ∧
  (Exists (λ n, find n.2 "name" = None ∨ find n.2 "instance" = None)
          (findall root servers_path) →
   ∃ evs, Forall (λ ev, ∃ s, ev = Printed s) evs ∧
          select_server root w =
            (Raise AttributeError, World (fs w) (stdin w) (log w ++ evs))).
Proof.
  split.
  - intros Hnone. unfold select_server. rewrite Hnone.
    unfold bind, print, emit, exit. cbn [fs stdin log length Nat.eqb].
    by rewrite <- app_assoc.
  - intros Hex.
    assert (Hex' : Exists (λ s, find s "name" = None ∨ find s "instance" = None)
                          (map snd (findall root servers_path))).
    { apply Exists_fmap. exact Hex. }
    destruct (list_servers_broken _
                (World (fs w) (stdin w)
                   (log w ++ [Printed "Getting wireguard instances..."] ++
                    [Printed ("Found " +:+ pretty (length (findall root servers_path)) +:+ ":")]))
                Hex')
      as (listing & Hlisting & Hlist).
    exists ([Printed "Getting wireguard instances...";
             Printed ("Found " +:+ pretty (length (findall root servers_path)) +:+ ":")] ++
            listing).
    split; [repeat (apply Forall_cons_2; [by eexists|]); exact Hlisting|].
    unfold select_server.
    unfold bind at 1. unfold print at 1, emit at 1.
    unfold bind at 1.
    destruct (length (findall root servers_path)) as [|k] eqn:Hlen.
    { destruct (findall root servers_path); [by inversion Hex | discriminate]. }
    cbn [Nat.eqb]. unfold ret at 1.
    unfold bind at 1. unfold print at 1, emit at 1. cbn [fs stdin log].
    unfold bind at 1. rewrite <- app_assoc. rewrite Hlist.
    cbn [fs stdin log]. f_equal. f_equal. by rewrite <- !app_assoc.
Qed.

(** A letter of the ASCII alphabet has two cases. *)
Lemma letter_two_cases (c : ascii) :
  (65 ≤ nat_of_ascii c ≤ 90 ∨ 97 ≤ nat_of_ascii c ≤ 122)%nat →
  PyStr.lower_ascii c ≠ PyStr.upper_ascii c.
Proof.
  intros Hc Heq. apply (f_equal nat_of_ascii) in Heq.
  unfold PyStr.lower_ascii, PyStr.upper_ascii in Heq.
  destruct Hc as [[H1 H2]|[H1 H2]].
  - rewrite (proj2 (Nat.leb_le _ _) H1), (proj2 (Nat.leb_le _ _) H2) in Heq.
    replace (97 <=? nat_of_ascii c)%nat with false in Heq
      by (symmetry; apply Nat.leb_gt; lia).
    simpl in Heq. rewrite nat_ascii_embedding in Heq; lia.
  - replace (65 <=? nat_of_ascii c)%nat with true in Heq
      by (symmetry; apply Nat.leb_le; lia).
    replace (nat_of_ascii c <=? 90)%nat with false in Heq
      by (symmetry; apply Nat.leb_gt; lia).
    rewrite (proj2 (Nat.leb_le _ _) H1), (proj2 (Nat.leb_le _ _) H2) in Heq.
    simpl in Heq. rewrite nat_ascii_embedding in Heq; lia.
Qed.

Lemma letter_changes_case (s : string) (c : ascii) :
  c ∈ String.list_ascii_of_string s →
  (65 ≤ nat_of_ascii c ≤ 90 ∨ 97 ≤ nat_of_ascii c ≤ 122)%nat →
  PyStr.lower s ≠ PyStr.upper s.
Proof.
  intros Hin Hc. induction s as [|d s IH]; [by apply elem_of_nil in Hin|].
  simpl in Hin. apply elem_of_cons in Hin as [<-|Hin]; intros [= Hd Hs].
  - by apply (letter_two_cases c).
  - by apply IH.
Qed.

(** X14: the server [select_server] returns is a node of the document, at
    the path returned with it: the first of the listed servers, in document
    order, that has an instance child with the text of the answer, or of
    "0" after a blank answer. *)
Theorem chosen_server_is_first_match (root : Element) (w w' : world)
    (answer : string) (rest : list string) (p : path) (s : Element) :
  stdin w = answer :: rest →
  select_server root w = (Ret (p, s), w') →
  let chosen := PyStr.or_default answer default_instance in
  get_at root p = Some s ∧
  has_child_text "instance" chosen s = true ∧
  (∃ before after,
     findall root servers_path = before ++ (p, s) :: after ∧
     Forall (λ n, has_child_text "instance" chosen n.2 = false) before) ∧
  fs w' = fs w ∧ stdin w' = rest.
Proof.
  intros Hin Hret chosen.
  destruct (select_server_no_listing root w) as [Hnone Hbroken].
  destruct (decide (findall root servers_path = [])) as [Hempty|Hne].
  { rewrite (Hnone Hempty) in Hret. discriminate. }
  destruct (Forall_Exists_dec
              (λ n : path * Element,
                 is_Some (find n.2 "name") ∧ is_Some (find n.2 "instance"))
              (λ n, ¬ (is_Some (find n.2 "name") ∧ is_Some (find n.2 "instance")))
              (λ n, decide _) (findall root servers_path)) as [Hall|Hex].
  2:{ destruct Hbroken as (evs & _ & Hraise).
      - eapply Exists_impl; [exact Hex|]. intros n Hn. simpl in Hn.
        destruct (find n.2 "name"), (find n.2 "instance"); eauto.
        destruct Hn. split; eauto.
      - rewrite Hraise in Hret. discriminate. }
  destruct (select_server_eq root w answer rest Hne Hall Hin) as (evs & _ & Heq).
  rewrite Heq in Hret. cbv zeta in Hret. fold chosen in Hret.
  destruct (String.eqb (PyStr.lower chosen) (PyStr.upper chosen)); [|discriminate].
  cbn [negb] in Hret. destruct (int chosen) as [n|]; [|discriminate].
  destruct (Z.of_nat (length (findall root servers_path)) <? n)%Z; [discriminate|].
  destruct (findall root (server_path chosen)) as [|found others] eqn:Hfound;
    [discriminate|].
  injection Hret as -> <-.
  split.
  { apply (findall_get_at root (server_path chosen)). rewrite Hfound. by left. }
  rewrite findall_server_path in Hfound.
  assert (Hfirst : has_child_text "instance" chosen s = true ∧
            ∃ before after, findall root servers_path = before ++ (p, s) :: after ∧
              Forall (λ n, has_child_text "instance" chosen n.2 = false) before).
  { revert Hfound. generalize (findall root servers_path). intros l.
    induction l as [|m l IH]; [discriminate|]. simpl.
    destruct (has_child_text "instance" chosen m.2) eqn:Hm.
    - intros [= -> _]. split; [exact Hm|]. by exists [], l.
    - intros Hl. destruct (IH Hl) as (Hs & before & after & -> & Hb).
      split; [exact Hs|]. exists (m :: before), after. split; [reflexivity|].
      by constructor. }
  destruct Hfirst as (Hs & Hrest). by repeat split.
Qed.

(** X15: a number that passes the check (it is at most the number of
    servers, which the highest instance is below) and that no server has
    as its instance ends the run by an uncaught [IndexError]; with one
    server of instance 0, the answer 1 does. *)
Theorem unknown_instance_raises (root : Element) (w : world)
    (answer : string) (rest : list string) (n : Z) :
  stdin w = answer :: rest →
  let chosen := PyStr.or_default answer default_instance in
  let servers := findall root servers_path in
  servers ≠ [] →
  Forall (λ m, is_Some (find m.2 "name") ∧ is_Some (find m.2 "instance")) servers →
  PyStr.lower chosen = PyStr.upper chosen →
  int chosen = Some n →
  (n ≤ Z.of_nat (length servers))%Z →
  Forall (λ m, has_child_text "instance" chosen m.2 = false) servers →
  fst (select_server root w) = Raise IndexError ∧
  fs (snd (select_server root w)) = fs w ∧
  stdin (snd (select_server root w)) = rest.
Proof.
  intros Hin chosen servers Hne Hall Hcase Hint Hle Hnone.
  destruct (select_server_eq root w answer rest Hne Hall Hin) as (evs & _ & ->).
  cbv zeta. fold chosen. rewrite Hcase, String.eqb_refl, Hint. cbn [negb].
  fold servers. replace (Z.of_nat (length servers) <? n)%Z with false
    by (symmetry; apply Z.ltb_ge; exact Hle).
  rewrite findall_server_path. fold servers.
  replace (List.filter _ servers) with (@nil (path * Element)); [done|].
  clear -Hnone. induction Hnone as [|m l Hm _ IH]; [done|].
  simpl. by rewrite Hm.
Qed.

(** X16: an answer with a letter of the ASCII alphabet in it, and a number
    above the number of servers, end the run by [exit(0)] after the quit
    message, with no file touched. *)
Theorem refused_instance_quits (root : Element) (w : world)
    (answer : string) (rest : list string) :
  stdin w = answer :: rest →
  let chosen := PyStr.or_default answer default_instance in
  let servers := findall root servers_path in
  servers ≠ [] →
  Forall (λ m, is_Some (find m.2 "name") ∧ is_Some (find m.2 "instance")) servers →
  (∃ c, c ∈ String.list_ascii_of_string chosen ∧
        (65 ≤ nat_of_ascii c ≤ 90 ∨ 97 ≤ nat_of_ascii c ≤ 122)%nat) ∨
  (PyStr.lower chosen = PyStr.upper chosen ∧
   ∃ n, int chosen = Some n ∧ (Z.of_nat (length servers) < n)%Z) →
  fst (select_server root w) = Exit 0 ∧
  fs (snd (select_server root w)) = fs w ∧
  last (log (snd (select_server root w))) =
    Some (Printed "User has quit without making changes.").
Proof.
  intros Hin chosen servers Hne Hall Hcase.
  destruct (select_server_eq root w answer rest Hne Hall Hin) as (evs & _ & ->).
  cbv zeta. fold chosen servers.
  destruct Hcase as [(c & Hc & Hletter)|(Hsame & n & Hint & Hlt)].
  - destruct (String.eqb_spec (PyStr.lower chosen) (PyStr.upper chosen)) as [Heq|_].
    + by destruct (letter_changes_case chosen c).
    + cbn [negb fst snd fs log]. split; [done|]. split; [done|].
      by rewrite !app_assoc, last_snoc.
  - rewrite Hsame, String.eqb_refl, Hint. cbn [negb].
    rewrite (proj2 (Z.ltb_lt _ _) Hlt). cbn [fst snd fs log].
    split; [done|]. split; [done|]. by rewrite !app_assoc, last_snoc.
Qed.


(** X18: without a server in the document the run ends by [exit(-1)]; with
    a server that has no name or no instance child it ends by an uncaught
    [AttributeError]; in both cases before the question is asked, with the
    terminal unread and no file touched. *)
Theorem listing_failures (root : Element) (w : world) :
  let servers := findall root servers_path in
  servers = [] ∨
  Exists (λ m, find m.2 "name" = None ∨ find m.2 "instance" = None) servers →
  fst (select_server root w) =
    (if decide (servers = []) then Exit (-1) else Raise AttributeError) ∧
  stdin (snd (select_server root w)) = stdin w ∧
  fs (snd (select_server root w)) = fs w.
Proof.
  intros servers Hcase.
  destruct (select_server_no_listing root w) as [Hnone Hbroken].
  destruct (decide (servers = [])) as [Hempty|Hne].
  - by rewrite (Hnone Hempty).
  - destruct Hcase as [|Hex]; [done|].
    destruct (Hbroken Hex) as (evs & _ & ->). done.
Qed.

End Choice.

(** ** The client's file, the restart and the QR code *)

Section Closing.

Context {L : PyLib}.
Variable E : env.

(** X19: when the client's .conf file cannot be written the run ends by an
    uncaught [OSError] at that point: wireguard is not restarted and no
    other command is run, although the document has been saved. *)
Theorem conf_failure_skips_restart (q : bool) (name content : string) (w : world)
    (residue : option string) :
  conf_write E = Failed residue →
  fst (finish E q name content w) = Raise OSError ∧
  fs (snd (finish E q name content w)) = put (name +:+ ".conf") residue (fs w) ∧
  ∀ cmd, Ran cmd ∈ log (snd (finish E q name content w)) → Ran cmd ∈ log w.
Proof.
  intros Hfail. unfold finish, bind, print, emit, write_file. rewrite Hfail.
  cbn [fst snd fs stdin log]. split; [done|]. split; [done|].
  intros cmd. rewrite !elem_of_app, !list_elem_of_singleton.
  intros [[?|?]|?]; [done|discriminate|discriminate].
Qed.

(** X20: when the client's .conf file is written it holds the text given;
    then come the restart of wireguard, whose failure does not stop the
    run, and, with QR support, the two [qrencode] commands, the second after
    a line is read from the terminal; at the end of the terminal's input the
    run ends there by [EOFError]. *)
Theorem finish_commands (q : bool) (name content : string) (w : world) :
  conf_write E = Done →
  fs (snd (finish E q name content w)) = <[name +:+ ".conf" := content]> (fs w) ∧
  fst (finish E q name content w) =
    (if q && bool_decide (stdin w = []) then Raise EOFError else Ret tt) ∧
  ∃ evs,
    log (snd (finish E q name content w)) = log w ++ evs ∧
    omap (λ ev, match ev with Ran cmd => Some cmd | _ => None end) evs =
      "configctl wireguard restart" ::
      (if q
       then ("qrencode -t png -o " +:+ (name +:+ ".png") +:+ " < " +:+ (name +:+ ".conf")) ::
            match stdin w with
            | [] => []
            | _ :: _ => ["qrencode -t ansiutf8 < " +:+ (name +:+ ".conf")]
            end
       else []).
Proof.
  intros Hdone. unfold finish, display_qr, bind, print, run, emit, write_file, input, ret.
  rewrite Hdone. cbn [fst snd fs stdin log].
  destruct (restart E), q; cbn [fst snd fs stdin log andb];
    try destruct (stdin w) as [|line rest]; cbn [fst snd fs stdin log];
    (split; [done|]); (split; [done|]);
    eexists; (split; [rewrite <- !app_assoc; reflexivity | reflexivity]).
Qed.

End Closing.

(** ** The indentation found by [add_formatted_subelement] *)

Section Indentation.

Lemma prefix_app (old rest : string) : String.prefix old (old +:+ rest) = true.
Proof.
  induction old as [|c old IH]; [by destruct rest|].
  rewrite append_cons. simpl. by destruct (ascii_dec c c).
Qed.

Lemma replace_from_skip (old new x rest : string) :
  PyStr.replace_from old new (String.length x) (x +:+ rest) =
  PyStr.replace_from old new 0 rest.
Proof.
  induction x as [|c x IH]; [by rewrite append_nil|].
  rewrite append_cons. simpl. exact IH.
Qed.

(** An occurrence of [old] at the start is replaced, and the scan goes on
    after it. *)
Lemma replace_prefix (c : ascii) (o new rest : string) :
  PyStr.replace (String c o +:+ rest) (String c o) new =
  new +:+ PyStr.replace rest (String c o) new.
Proof.
  pose proof (prefix_app (String c o) rest) as Hp. rewrite append_cons in Hp.
  unfold PyStr.replace. rewrite append_cons.
  cbn [PyStr.replace_from]. rewrite Hp.
  cbn [String.length].
  replace (S (String.length o) - 1) with (String.length o) by lia.
  by rewrite replace_from_skip.
Qed.

(** A string without the first character of [old] has no occurrence of
    it. *)
Lemma replace_absent (c : ascii) (o new s : string) :
  ¬ (c ∈ String.list_ascii_of_string s) →
  PyStr.replace s (String c o) new = s.
Proof.
  unfold PyStr.replace. induction s as [|d s IH]; [done|].
  simpl. rewrite not_elem_of_cons. intros [Hd Hs].
  destruct (ascii_dec c d) as [->|_]; [done|]. by rewrite IH.
Qed.

(** X21: with indent "auto" and a container that has children, the indent
    is what the text of the last child has after its tail: the call does
    what the call with that string as indent does. In a document indented
    by a unit, where that text is two levels deeper than that tail, this is
    twice the unit. *)
Theorem auto_indent_of_last_child (root : Element) (name : string)
    (att : list (string * string)) (childs : list (string * option string))
    (l : Element) (c : ascii) (tl u : string) :
  last (children root) = Some l →
  tail l = Some (String c tl) →
  text l = Some (String c tl +:+ u) →
  ¬ (c ∈ String.list_ascii_of_string u) →
  u ≠ "auto" →
  add_formatted_subelement root name att childs "auto" =
  add_formatted_subelement root name att childs u.
Proof.
  intros Hlast Htail Htext Hc Hu. unfold add_formatted_subelement.
  rewrite Hlast, Htext, Htail. cbn [String.eqb Ascii.eqb Bool.eqb].
  rewrite replace_prefix, replace_absent, append_nil by exact Hc.
  by destruct (String.eqb_spec u "auto").
Qed.

(** X22: with indent "auto" and a container without children, the indent
    is the first half of what the text of the container has after its
    tail. *)
Theorem auto_indent_of_empty_container (root : Element) (name : string)
    (att : list (string * string)) (childs : list (string * option string))
    (c : ascii) (tl u : string) :
  children root = [] →
  tail root = Some (String c tl) →
  text root = Some (String c tl +:+ u) →
  ¬ (c ∈ String.list_ascii_of_string u) →
  PyStr.take (String.length u / 2) u ≠ "auto" →
  add_formatted_subelement root name att childs "auto" =
  add_formatted_subelement root name att childs (PyStr.take (String.length u / 2) u).
Proof.
  intros Hnone Htail Htext Hc Hu. unfold add_formatted_subelement.
  rewrite Hnone, Htext, Htail. cbn [String.eqb Ascii.eqb Bool.eqb last].
  rewrite replace_prefix, replace_absent, append_nil by exact Hc.
  by destruct (String.eqb_spec (PyStr.take (String.length u / 2) u) "auto").
Qed.

End Indentation.

(** ** The peers field read back *)

Section PeersReadBack.

Lemma count_comma_absent (s : string) :
  ¬ (","%char ∈ String.list_ascii_of_string s) → PyStr.count s "," = 0.
Proof.
  unfold PyStr.count. induction s as [|c s IH]; [done|].
  cbn -[ascii_dec]. rewrite not_elem_of_cons. intros [Hc Hs].
  destruct (ascii_dec ","%char c) as [Heq|_]; [by destruct Hc|]. by apply IH.
Qed.

Lemma count_comma_zero (s : string) :
  PyStr.count s "," = 0 → ¬ (","%char ∈ String.list_ascii_of_string s).
Proof.
  unfold PyStr.count. induction s as [|c s IH]; [intros _; apply not_elem_of_nil|].
  cbn -[ascii_dec]. destruct (ascii_dec ","%char c) as [->|Hne]; [by destruct s|].
  intros H0. rewrite not_elem_of_cons. split; [done | by apply IH].
Qed.

Lemma split_from_absent (sep : ascii) (cur s : string) :
  ¬ (sep ∈ String.list_ascii_of_string s) →
  PyStr.split_from sep cur s = [cur +:+ s].
Proof.
  revert cur. induction s as [|c s IH]; intros cur; [by rewrite append_empty_r|].
  simpl. rewrite not_elem_of_cons. intros [Hc Hs].
  destruct (Ascii.eqb_spec c sep) as [->|_]; [done|].
  rewrite IH by exact Hs. by rewrite append_assoc.
Qed.

Lemma split_from_app (sep : ascii) (cur s t : string) :
  PyStr.split_from sep cur (s +:+ String sep t) =
  PyStr.split_from sep cur s ++ PyStr.split_from sep "" t.
Proof.
  revert cur. induction s as [|c s IH]; intros cur.
  - rewrite append_nil. simpl. by rewrite Ascii.eqb_refl.
  - rewrite append_cons. simpl. destruct (Ascii.eqb c sep); [|apply IH].
    by rewrite IH.
Qed.

Lemma parse_peers_split (existing : string) :
  existing ≠ "" → parse_peers (Some existing) = PyStr.split existing ",".
Proof.
  intros Hne. unfold parse_peers.
  destruct (String.eqb_spec existing "") as [|_]; [done|].
  destruct (Nat.eqb_spec (PyStr.count existing ",") 0) as [H0|_]; [|done].
  unfold PyStr.split. rewrite split_from_absent by by apply count_comma_zero.
  by rewrite append_nil.
Qed.

(** X23: the peers field the script writes is read back, by the next run,
    as the list it was made of: the identifiers of the field as it was,
    followed by the new one, when the new identifier is not empty and has
    no comma. *)
Theorem peers_read_back (existing uuid : string) :
  uuid ≠ "" →
  ¬ (","%char ∈ String.list_ascii_of_string uuid) →
  parse_peers (Some (PyStr.join "," (parse_peers (Some existing) ++ [uuid]))) =
  parse_peers (Some existing) ++ [uuid].
Proof.
  intros Hne Hcomma. rewrite join_snoc.
  destruct (parse_peers (Some existing)) as [|a l] eqn:Hp.
  - unfold parse_peers. destruct (String.eqb_spec uuid "") as [|_]; [done|].
    by rewrite count_comma_absent.
  - rewrite <- Hp, join_parse_peers.
    assert (Hex : existing ≠ "") by (intros ->; discriminate).
    rewrite (parse_peers_split existing Hex).
    assert (Hjoined : existing +:+ "," +:+ uuid ≠ "").
    { destruct existing; [done|]. rewrite append_cons. discriminate. }
    rewrite (parse_peers_split _ Hjoined). unfold PyStr.split.
    change ("," +:+ uuid) with (String "," uuid).
    rewrite split_from_app. f_equal.
    rewrite split_from_absent by exact Hcomma. by rewrite append_nil.
Qed.

End PeersReadBack.

(** ** What [main] has in hand at the backup *)

Section Plan.

Context {L : PyLib}.
Variable E : env.

Lemma load_config_ret (w w' : world) (rt : Element) :
  load_config E w = (Ret rt, w') →
  ∃ bytes, fs w !! opnsense_config_xml = Some bytes ∧ fromstring bytes = Some rt.
Proof.
  unfold load_config, bind, print, emit, ret, exit, raise. cbn [fs stdin log].
  destruct (fs w !! opnsense_config_xml) as [bytes|]; [|discriminate].
  destruct (read_config E); [|discriminate]. cbn [fs stdin log].
  destruct (fromstring bytes) as [r|] eqn:Hparse; [|discriminate].
  intros [= <- _]. eauto.
Qed.

Lemma select_server_found (rt : Element) (w w' : world) (srv : ET.path * Element) :
  select_server rt w = (Ret srv, w') →
  srv ∈ ET.findall rt servers_path ∧ ET.get_at rt srv.1 = Some srv.2.
Proof.
  unfold select_server. unfold bind at 1. unfold print at 1, emit at 1.
  unfold bind at 1.
  destruct (_ =? 0)%nat; [discriminate|]. unfold ret at 1.
  unfold bind at 1. destruct (print _ _) as [[[]|?|?] wa]; try discriminate.
  unfold bind at 1. destruct (list_servers _ wa) as [[[]|?|?] wb]; try discriminate.
  unfold bind at 1. destruct (_ wb) as [[chosen|?|?] wc]; try discriminate.
  unfold bind at 1. destruct (_ wc) as [[invalid|?|?] wd]; try discriminate.
  unfold bind at 1. destruct invalid; [discriminate|]. unfold ret at 1.
  unfold bind at 1. destruct (print _ wd) as [[[]|?|?] we]; try discriminate.
  unfold bind at 1. unfold lift at 1.
  destruct (first (ET.findall rt (server_path chosen))) as [found|?|?] eqn:Hfirst;
    try discriminate.
  unfold bind, print, emit, ret. intros [= <- _].
  apply first_elem_of in Hfirst. split.
  - rewrite findall_server_path in Hfirst.
    apply list_elem_of_In, filter_In in Hfirst as [Hin _]. by apply list_elem_of_In.
  - destruct found as [q s]. by apply (findall_get_at rt (server_path chosen)).
Qed.

Lemma allocate_ret (rt s : Element) (w w' : world) (conf : server_conf)
    (n : nat) (u t : string) :
  allocate E rt s w = (Ret (conf, n, u, t), w') →
  u = uuid4 E ∧ (∃ x, t = IP.to_string x +:+ "/32") ∧
  is_Some (pubkey conf) ∧ is_Some (port conf).
Proof.
  unfold allocate. unfold bind at 1. unfold print at 1, emit at 1.
  unfold bind at 1.
  destruct (parse_server_details s _) as [[[c cc]|?|?] wa] eqn:Hparse;
    try discriminate.
  unfold bind at 1. destruct (print _ wa) as [[[]|?|?] wb]; try discriminate.
  unfold bind at 1. destruct (print _ wb) as [[[]|?|?] wc]; try discriminate.
  unfold bind at 1. destruct (scan_clients _ _ _ _ wc) as [[[k r]|?|?] wd];
    try discriminate.
  unfold bind at 1. unfold lift at 1. cbn [fst snd].
  destruct (first r) as [x|?|?]; try discriminate.
  unfold bind, print, emit, ret. intros [= <- _ <- <-].
  split; [done|]. split; [by eexists|].
  unfold parse_server_details in Hparse.
  destruct (ET.findtext s "tunneladdress") as [ta|] eqn:Hta; [|discriminate].
  cbn [mbind option_bind] in Hparse.
  destruct (ip_network ta false) as [net|] eqn:Hnet; [|discriminate].
  destruct (ET.findtext s "pubkey") as [pk|], (ET.findtext s "port") as [pt|];
    cbn in Hparse; try discriminate.
  injection Hparse as <- _ _. by split; eexists.
Qed.

Lemma generate_keys_ret (w w' : world) (k p s : string) :
  generate_keys E w = (Ret (k, p, s), w') →
  last_char k ≠ Some (ascii_of_nat 10) ∧
  last_char p ≠ Some (ascii_of_nat 10) ∧
  last_char s ≠ Some (ascii_of_nat 10).
Proof.
  unfold generate_keys, bind, try_except, check_output, run, print, emit, ret,
    raise, exit. cbn [fs stdin log].
  destruct (wg_genkey E) as [k0|]; cbn; [|discriminate].
  destruct (wg_pubkey E (rstrip_nl k0)) as [p0|]; cbn; [|discriminate].
  destruct (wg_genpsk E) as [s0|]; cbn; [|discriminate].
  intros [= <- <- <- _]. auto using rstrip_nl_end.
Qed.

(** X24: when [main] reaches the backup, the tree it holds is the parse of
    the config file, the server is a node of that tree among the listed
    servers, the server's pubkey and port are known (so neither is written
    as None to the client's file), the endpoint is a host name followed by
    a colon and that port, the client's address is an address followed by
    /32, its uuid is the one drawn, the three keys do not end in a line
    break, and no file has been touched. *)
Theorem plan_at_backup (w w1 : world) (p : plan) :
  prepare E w = (Ret p, w1) →
  (∃ bytes, fs w !! opnsense_config_xml = Some bytes ∧
            fromstring bytes = Some (root p)) ∧
  (∃ s, (server p, s) ∈ ET.findall (root p) servers_path ∧
        ET.get_at (root p) (server p) = Some s) ∧
  (∃ pk pt host, pubkey (conf p) = Some pk ∧ port (conf p) = Some pt ∧
                 endpoint p = host +:+ ":" +:+ pt) ∧
  (∃ x, client_tunneladdress p = IP.to_string x +:+ "/32") ∧
  uuid p = uuid4 E ∧
  last_char (privkey p) ≠ Some (ascii_of_nat 10) ∧
  last_char (client_pubkey p) ≠ Some (ascii_of_nat 10) ∧
  last_char (psk p) ≠ Some (ascii_of_nat 10) ∧
  fs w1 = fs w.
Proof.
  intros Hp.
  assert (Hfs : fs w1 = fs w).
  { destruct (steady_prepare E w) as [Hfs _]. by rewrite Hp in Hfs. }
  unfold prepare in Hp. unfold bind at 1 in Hp.
  destruct (ask_packages E w) as [[q|?|?] wa] eqn:Ha; try discriminate.
  unfold bind at 1 in Hp.
  destruct (load_config E wa) as [[rt|?|?] wb] eqn:Hb; try discriminate.
  unfold bind at 1 in Hp.
  destruct (select_server rt wb) as [[srv|?|?] wc] eqn:Hc; try discriminate.
  unfold bind at 1 in Hp.
  destruct (allocate E rt srv.2 wc) as [[[[[c n] u] t]|?|?] wd] eqn:Hd;
    try discriminate.
  unfold bind at 1 in Hp.
  destruct (generate_keys E wd) as [[[[k pb] sh]|?|?] we] eqn:He; try discriminate.
  unfold bind at 1 in Hp. cbn [fst snd] in Hp.
  destruct (ask_settings n we) as [[[[ep dn] nm]|?|?] wf] eqn:Hf; try discriminate.
  unfold ret in Hp. cbn [fst snd] in Hp. injection Hp as <- <-. cbn.
  apply load_config_ret in Hb as (bytes & Hbytes & Hparse).
  destruct (steady_ask_packages E w) as [Hfa _]. rewrite Ha in Hfa. simpl in Hfa.
  rewrite Hfa in Hbytes.
  apply select_server_found in Hc as [Hin Hget]. destruct srv as [sp s].
  apply allocate_ret in Hd as (-> & Hx & [pk Hpk] & [pt Hpt]).
  apply generate_keys_ret in He as (Hk & Hpb & Hsh).
  rewrite Hpk, Hpt.
  split; [by eauto|]. split; [by eauto|]. split; [by eauto 10|].
  by repeat split.
Qed.

End Plan.

(** ** The further properties on the examples *)

Section FurtherWitnesses.

Import Examples Cases.



Lemma peers_element_after_edit_witness :
  ∃ i field,
    ET.get_at four_spaces_edited (fst (server_at four_spaces) ++ [i]) = Some field ∧
    tag field = "peers" ∧
    text field = Some (if String.eqb "A,B" "" then "X" else "A,B" +:+ "," +:+ "X").
Proof.
  apply (peers_element_after_edit four_spaces (fst (server_at four_spaces))
           four_spaces_conf "A,B" "X" "client2" "PUBLICKEY" "SHAREDKEY" "10.0.0.4/32"
           four_spaces_edited);
    vm_compute; reflexivity.
Defined.

Lemma new_client_element_witness :
  ∃ rt,
    tail (default four_spaces (ET.get_at four_spaces [0; 0; 1; 0])) = Some rt ∧
    let level := PyStr.count rt "  " + 1 in
    let inner := Some (nl +:+ PyStr.repeat "  " (level + 2)) in
    let field k v := Elem k [] v inner [] in
    ET.get_at four_spaces_edited
      ([0; 0; 1; 0] ++
       [length (children (default four_spaces (ET.get_at four_spaces [0; 0; 1; 0])))]) =
      Some (Elem "client" [("uuid", "X")] inner
              (Some (nl +:+ PyStr.repeat "  " level))
              [field "enabled" (Some "0");
               field "name" (Some "client2");
               field "pubkey" (Some "PUBLICKEY");
               field "psk" (Some "SHAREDKEY");
               field "tunneladdress" (Some "10.0.0.4/32");
               field "serveraddress" None;
               field "serverport" (port four_spaces_conf);
               Elem "keepalive" [] (Some "25")
                 (Some (nl +:+ PyStr.repeat "  " (level + 1))) []]).
Proof.
  apply (new_client_element four_spaces (fst (server_at four_spaces)) four_spaces_conf
           "X" "client2" "PUBLICKEY" "SHAREDKEY" "10.0.0.4/32" four_spaces_edited
           [0; 0; 1; 0] (default four_spaces (ET.get_at four_spaces [0; 0; 1; 0])) []).
  - vm_compute. reflexivity.
  - intros [k Hk]. vm_compute in Hk. discriminate Hk.
  - vm_compute. reflexivity.
Defined.

Lemma committed_document_witness :
  fs (snd (main (L := lib) fine (disk one_peer))) !! opnsense_config_xml =
    Some (tostring (PyLib := lib) one_peer_edited) ∧
  fs (snd (main (L := lib) fine (disk one_peer))) !! backup_path =
    Some (Concrete.serialize_xml one_peer) ∧
  ∀ c, fst (main (L := lib) fine (disk one_peer)) ≠ Exit c.
Proof.
  apply (committed_document (L := lib) fine (disk one_peer)
           (snd (prepare (L := lib) fine (disk one_peer))) (plan_of one_peer)
           (Concrete.serialize_xml one_peer) one_peer_edited);
    vm_compute; reflexivity.
Defined.

End FurtherWitnesses.

Section RunWitnesses.

Import Examples Cases.

Lemma unformatted_container_stops_run_witness :
  fst (main (L := compact_lib) fine (disk compact)) = Raise AttributeError ∧
  fs (snd (main (L := compact_lib) fine (disk compact))) !! opnsense_config_xml =
    Some (Concrete.serialize_xml compact) ∧
  fs (snd (main (L := compact_lib) fine (disk compact))) !! backup_path =
    Some (Concrete.serialize_xml compact).
Proof.
  apply (unformatted_container_stops_run (L := compact_lib) fine (disk compact)
           (snd (prepare (L := compact_lib) fine (disk compact))) (plan_of compact)
           (Concrete.serialize_xml compact) AttributeError);
    try (vm_compute; reflexivity).
  right. exists [0; 0; 1; 0], (default compact (ET.get_at compact [0; 0; 1; 0])), [].
  vm_compute. by repeat split.
Defined.

Lemma quit_leaves_no_trace_witness :
  fs (snd (main (L := lib) fine (typed one_peer ["q"]))) = fs (typed one_peer ["q"]) ∧
  ∃ evs, log (snd (main (L := lib) fine (typed one_peer ["q"]))) =
           (log (typed one_peer ["q"]) ++ evs)%list ∧ Forall quiet evs.
Proof.
  apply (quit_leaves_no_trace (L := lib) fine (typed one_peer ["q"])).
  vm_compute. reflexivity.
Defined.

Lemma package_question_witness :
  ∃ prompts,
    Forall (λ ev, ∃ s, ev = Printed s) prompts ∧
    let asked := World (fs (typed one_peer ["Q"])) [] (log (typed one_peer ["Q"]) ++ prompts) in
    (PyStr.lower "Q" = "y" →
     ask_packages fine (typed one_peer ["Q"]) = install_packages fine asked) ∧
    (PyStr.lower "Q" = "q" →
     ask_packages fine (typed one_peer ["Q"]) =
       (Exit 0, World (fs (typed one_peer ["Q"])) []
                  (log (typed one_peer ["Q"]) ++ prompts ++
                   [Printed "User has quit without making changes."]))) ∧
    (PyStr.lower "Q" ≠ "y" → PyStr.lower "Q" ≠ "q" →
     ask_packages fine (typed one_peer ["Q"]) = (Ret false, asked)).
Proof.
  apply (package_question fine (typed one_peer ["Q"]) "Q" []). reflexivity.
Defined.

Lemma parse_error_is_name_error_witness :
  fst (main (L := lib) fine broken_disk) = Raise NameError ∧
  fs (snd (main (L := lib) fine broken_disk)) = fs broken_disk ∧
  last (log (snd (main (L := lib) fine broken_disk))) =
    Some (Printed "Attempting to parse the config...").
Proof.
  apply (parse_error_is_name_error (L := lib) fine broken_disk
           (snd (ask_packages fine broken_disk)) false "<opnsense>");
    vm_compute; reflexivity.
Defined.

Lemma unreadable_config_aborts_witness :
  fst (main (L := lib) fine empty_disk) = Exit (-1) ∧
  fs (snd (main (L := lib) fine empty_disk)) = fs empty_disk ∧
  last (log (snd (main (L := lib) fine empty_disk))) =
    Some (Printed (match fs empty_disk !! opnsense_config_xml with
                   | Some _ => "Failed. Unknown issue with config file."
                   | None => "Failed. Can't find the file?"
                   end)).
Proof.
  apply (unreadable_config_aborts (L := lib) fine empty_disk
           (snd (ask_packages fine empty_disk)) false).
  - vm_compute. reflexivity.
  - left. reflexivity.
Defined.

Lemma settings_asked_witness :
  fst (ask_settings 1 (typed one_peer [""; "10.0.0.1"; ""; "Y"])) =
    (if String.eqb (PyStr.lower "Y") "y"
     then Ret (PyStr.or_default "" default_endpoint,
               PyStr.or_default "10.0.0.1" default_dns,
               PyStr.or_default "" ("client" +:+ pretty 1))
     else Exit 0) ∧
  stdin (snd (ask_settings 1 (typed one_peer [""; "10.0.0.1"; ""; "Y"]))) = [] ∧
  fs (snd (ask_settings 1 (typed one_peer [""; "10.0.0.1"; ""; "Y"]))) =
    fs (typed one_peer [""; "10.0.0.1"; ""; "Y"]).
Proof.
  apply (settings_asked 1 (typed one_peer [""; "10.0.0.1"; ""; "Y"])
           "" "10.0.0.1" "" "Y" []).
  reflexivity.
Defined.

Lemma chosen_server_is_first_match_witness :
  let chosen := PyStr.or_default "" default_instance in
  ET.get_at one_peer (fst (server_at one_peer)) = Some (snd (server_at one_peer)) ∧
  ET.has_child_text "instance" chosen (snd (server_at one_peer)) = true ∧
  (∃ before after,
     ET.findall one_peer servers_path =
       before ++ (fst (server_at one_peer), snd (server_at one_peer)) :: after ∧
     Forall (λ n, ET.has_child_text "instance" chosen n.2 = false) before) ∧
  fs (snd (select_server (L := lib) one_peer (typed one_peer [""]))) =
    fs (typed one_peer [""]) ∧
  stdin (snd (select_server (L := lib) one_peer (typed one_peer [""]))) = [].
Proof.
  apply (chosen_server_is_first_match (L := lib) one_peer (typed one_peer [""])
           (snd (select_server (L := lib) one_peer (typed one_peer [""])))
           "" [] (fst (server_at one_peer)) (snd (server_at one_peer)));
    vm_compute; reflexivity.
Defined.

Lemma unknown_instance_raises_witness :
  fst (select_server (L := lib) one_peer (typed one_peer ["1"])) = Raise IndexError ∧
  fs (snd (select_server (L := lib) one_peer (typed one_peer ["1"]))) =
    fs (typed one_peer ["1"]) ∧
  stdin (snd (select_server (L := lib) one_peer (typed one_peer ["1"]))) = [].
Proof.
  apply (unknown_instance_raises (L := lib) one_peer (typed one_peer ["1"]) "1" [] 1).
  - reflexivity.
  - vm_compute. discriminate.
  - vm_compute. repeat constructor; by eexists.
  - reflexivity.
  - reflexivity.
  - vm_compute. discriminate.
  - vm_compute. repeat constructor.
Defined.

Lemma refused_instance_quits_witness :
  fst (select_server (L := lib) one_peer (typed one_peer ["wg0"])) = Exit 0 ∧
  fs (snd (select_server (L := lib) one_peer (typed one_peer ["wg0"]))) =
    fs (typed one_peer ["wg0"]) ∧
  last (log (snd (select_server (L := lib) one_peer (typed one_peer ["wg0"])))) =
    Some (Printed "User has quit without making changes.").
Proof.
  apply (refused_instance_quits (L := lib) one_peer (typed one_peer ["wg0"]) "wg0" []).
  - reflexivity.
  - vm_compute. discriminate.
  - vm_compute. repeat constructor; by eexists.
  - left. exists "w"%char. split; [vm_compute; left | vm_compute; lia].
Defined.


Lemma listing_failures_witness :
  fst (select_server (L := lib) nameless (typed nameless ["0"])) =
    (if decide (ET.findall nameless servers_path = [])
     then Exit (-1) else Raise AttributeError) ∧
  stdin (snd (select_server (L := lib) nameless (typed nameless ["0"]))) =
    stdin (typed nameless ["0"]) ∧
  fs (snd (select_server (L := lib) nameless (typed nameless ["0"]))) =
    fs (typed nameless ["0"]).
Proof.
  apply (listing_failures (L := lib) nameless (typed nameless ["0"])).
  right. vm_compute. left. by left.
Defined.

Lemma conf_failure_skips_restart_witness :
  fst (finish conf_fails true "client1" "text" (typed one_peer [""])) = Raise OSError ∧
  fs (snd (finish conf_fails true "client1" "text" (typed one_peer [""]))) =
    put ("client1" +:+ ".conf") None (fs (typed one_peer [""])) ∧
  ∀ cmd, Ran cmd ∈ log (snd (finish conf_fails true "client1" "text" (typed one_peer [""]))) →
         Ran cmd ∈ log (typed one_peer [""]).
Proof.
  apply (conf_failure_skips_restart conf_fails true "client1" "text"
           (typed one_peer [""]) None).
  reflexivity.
Defined.

Lemma finish_commands_witness :
  fs (snd (finish fine true "client1" "text" (typed one_peer [""]))) =
    <[("client1" +:+ ".conf") := "text"]> (fs (typed one_peer [""])) ∧
  fst (finish fine true "client1" "text" (typed one_peer [""])) =
    (if true && bool_decide (stdin (typed one_peer [""]) = [])
     then Raise EOFError else Ret tt) ∧
  ∃ evs,
    log (snd (finish fine true "client1" "text" (typed one_peer [""]))) =
      log (typed one_peer [""]) ++ evs ∧
    omap (λ ev, match ev with Ran cmd => Some cmd | _ => None end) evs =
      "configctl wireguard restart" ::
      (if true
       then ("qrencode -t png -o " +:+ ("client1" +:+ ".png") +:+ " < " +:+
             ("client1" +:+ ".conf")) ::
            match stdin (typed one_peer [""]) with
            | [] => []
            | _ :: _ => ["qrencode -t ansiutf8 < " +:+ ("client1" +:+ ".conf")]
            end
       else []).
Proof.
  apply (finish_commands fine true "client1" "text" (typed one_peer [""])).
  reflexivity.
Defined.

Lemma auto_indent_of_last_child_witness :
  add_formatted_subelement
    (default one_peer (ET.get_at one_peer [0; 0; 1; 0])) "client" [("uuid", "X")]
    [("enabled", Some "0")] "auto" =
  add_formatted_subelement
    (default one_peer (ET.get_at one_peer [0; 0; 1; 0])) "client" [("uuid", "X")]
    [("enabled", Some "0")] "    ".
Proof.
  apply (auto_indent_of_last_child
           (default one_peer (ET.get_at one_peer [0; 0; 1; 0])) "client" [("uuid", "X")]
           [("enabled", Some "0")]
           (default one_peer (ET.get_at one_peer [0; 0; 1; 0; 0]))
           (ascii_of_nat 10) "        " "    ").
  - vm_compute. reflexivity.
  - vm_compute. reflexivity.
  - vm_compute. reflexivity.
  - apply (bool_decide_unpack _). vm_compute. exact I.
  - discriminate.
Defined.

Lemma auto_indent_of_empty_container_witness :
  add_formatted_subelement
    (default no_server (ET.get_at no_server [0; 0; 1; 0])) "client" [("uuid", "X")]
    [("enabled", Some "0")] "auto" =
  add_formatted_subelement
    (default no_server (ET.get_at no_server [0; 0; 1; 0])) "client" [("uuid", "X")]
    [("enabled", Some "0")] (PyStr.take (String.length "    " / 2) "    ").
Proof.
  apply (auto_indent_of_empty_container
           (default no_server (ET.get_at no_server [0; 0; 1; 0])) "client" [("uuid", "X")]
           [("enabled", Some "0")] (ascii_of_nat 10) "      " "    ").
  - vm_compute. reflexivity.
  - vm_compute. reflexivity.
  - vm_compute. reflexivity.
  - apply (bool_decide_unpack _). vm_compute. exact I.
  - vm_compute. discriminate.
Defined.

Lemma peers_read_back_witness :
  parse_peers (Some (PyStr.join "," (parse_peers (Some "A,B") ++ ["X"]))) =
  parse_peers (Some "A,B") ++ ["X"].
Proof.
  apply (peers_read_back "A,B" "X").
  - discriminate.
  - apply (bool_decide_unpack _). vm_compute. exact I.
Defined.

Lemma plan_at_backup_witness :
  (∃ bytes, fs (disk one_peer) !! opnsense_config_xml = Some bytes ∧
            fromstring (PyLib := lib) bytes = Some (root (plan_of one_peer))) ∧
  (∃ s, (server (plan_of one_peer), s) ∈ ET.findall (root (plan_of one_peer)) servers_path ∧
        ET.get_at (root (plan_of one_peer)) (server (plan_of one_peer)) = Some s) ∧
  (∃ pk pt host, pubkey (conf (plan_of one_peer)) = Some pk ∧
                 port (conf (plan_of one_peer)) = Some pt ∧
                 endpoint (plan_of one_peer) = host +:+ ":" +:+ pt) ∧
  (∃ x, client_tunneladdress (plan_of one_peer) = IP.to_string x +:+ "/32") ∧
  uuid (plan_of one_peer) = uuid4 fine ∧
  last_char (privkey (plan_of one_peer)) ≠ Some (ascii_of_nat 10) ∧
  last_char (client_pubkey (plan_of one_peer)) ≠ Some (ascii_of_nat 10) ∧
  last_char (psk (plan_of one_peer)) ≠ Some (ascii_of_nat 10) ∧
  fs (snd (prepare (L := lib) fine (disk one_peer))) = fs (disk one_peer).
Proof.
  apply (plan_at_backup (L := lib) fine (disk one_peer)
           (snd (prepare (L := lib) fine (disk one_peer))) (plan_of one_peer)).
  vm_compute. reflexivity.
Defined.

Lemma failed_restore_aborts_witness :
  fst (main (L := lib) restore_fails (disk one_peer)) = Exit (-1) ∧
  fs (snd (main (L := lib) restore_fails (disk one_peer))) !! backup_path =
    Some (Concrete.serialize_xml one_peer) ∧
  fs (snd (main (L := lib) restore_fails (disk one_peer))) !! opnsense_config_xml = None ∧
  (∀ cmd, Ran cmd ∈ log (snd (main (L := lib) restore_fails (disk one_peer))) →
          Ran cmd ∈ log (snd (prepare (L := lib) restore_fails (disk one_peer)))) ∧
  last (log (snd (main (L := lib) restore_fails (disk one_peer)))) =
    Some (Printed "Can't restore xml. You'll need to fix this yourself. Sorry!").
Proof.
  apply (failed_restore_aborts (L := lib) restore_fails (disk one_peer)
           (snd (prepare (L := lib) restore_fails (disk one_peer))) (plan_of one_peer)
           (Concrete.serialize_xml one_peer) one_peer_edited (Some "<opnsense>") None);
    vm_compute; reflexivity.
Defined.

End RunWitnesses.
